(** * bqtableschema: the struct generator of [main.go], embedded in Rocq

    The development follows [main.go] function by function.  Go strings are
    byte sequences, so they are modelled by [string] (a list of 8-bit
    [ascii] codes); a Go [map[string]bool] is a [gmap string bool]; a Go
    multiple return value [(a, b, err)] is a tuple whose last component is an
    [option error] ([None] is Go's [nil] error); [nil] slices are [[]]. *)

From Stdlib Require Import Ascii String.
From stdpp Require Import base option list strings gmap.

(** Go's string concatenation: [+] groups to the left. *)
Declare Scope go_scope.
Delimit Scope go_scope with go.
Infix "+" := String.append (at level 50, left associativity) : go_scope.

(** ** Characters that a Rocq literal cannot hold directly *)

Definition dquote : string := String "034"%char "".
Definition tab : string := String "009"%char "".
Definition nl : string := String "010"%char "".

(** ** Go's [error] values and [fmt.Errorf] *)

(** An error is either a plain message ([errors.New], or [fmt.Errorf] with
    no [%w] verb) or a message wrapping another error ([fmt.Errorf] with
    [%w]). *)
Inductive error : Type :=
| errorString (msg : string)
| wrapError (msg : string) (err : error).

(** [err.Error()] *)
Definition Error (e : error) : string :=
  match e with
  | errorString msg => msg
  | wrapError msg _ => msg
  end.

(** [errors.Unwrap(err)] *)
Definition Unwrap (e : error) : option error :=
  match e with
  | errorString _ => None
  | wrapError _ err => Some err
  end.

(** [fmt.Errorf(prefix + "%w", err)]: the message is the prefix followed by
    the message of the wrapped error. *)
Definition Errorf_w (prefix : string) (err : error) : error :=
  wrapError (prefix + Error err)%go err.

(** ** [strings.ToUpper] on a one-byte string *)

Module GoStrings.

(** ['a' <= c && c <= 'z'] *)
Definition isLower (c : ascii) : bool :=
  (97 <=? nat_of_ascii c)%nat && (nat_of_ascii c <=? 122)%nat.

(** [c >= utf8.RuneSelf] *)
Definition isRuneSelf (c : ascii) : bool := (128 <=? nat_of_ascii c)%nat.

(** The UTF-8 encoding of [utf8.RuneError] (U+FFFD): bytes EF BF BD. *)
Definition RuneError : string :=
  String "239"%char (String "191"%char (String "189"%char "")).

(** [strings.ToUpper] applied to the one-byte string made of [c], which is
    the only way [capitalizeInitial] calls it.  An ASCII byte takes the
    ASCII path of [ToUpper]: a lower-case letter has ['a' - 'A'] subtracted,
    any other byte is kept.  A byte [>= utf8.RuneSelf] standing alone is
    not a complete UTF-8 sequence: [ToUpper] falls through to
    [strings.Map(unicode.ToUpper, s)], whose [range] decodes it as
    [utf8.RuneError] of width 1 and which writes the rune U+FFFD in its
    place. *)
Definition ToUpper_byte (c : ascii) : string :=
  if isRuneSelf c then RuneError
  else if isLower c then String (ascii_of_nat (nat_of_ascii c - 32)) ""
  else String c "".

End GoStrings.

(** ** The [bigquery] and [reflect] names that [main.go] uses *)

Module bigquery.

(** [type FieldType string] *)
Definition FieldType : Type := string.

Definition StringFieldType : FieldType := "STRING".
Definition BytesFieldType : FieldType := "BYTES".
Definition IntegerFieldType : FieldType := "INTEGER".
Definition FloatFieldType : FieldType := "FLOAT".
Definition BooleanFieldType : FieldType := "BOOLEAN".
Definition TimestampFieldType : FieldType := "TIMESTAMP".
Definition RecordFieldType : FieldType := "RECORD".
Definition DateFieldType : FieldType := "DATE".
Definition TimeFieldType : FieldType := "TIME".
Definition DateTimeFieldType : FieldType := "DATETIME".
Definition NumericFieldType : FieldType := "NUMERIC".
Definition GeographyFieldType : FieldType := "GEOGRAPHY".

(** [bigquery.FieldSchema], the two fields that are read. *)
Record FieldSchema : Type := mkFieldSchema {
  Name : string;
  Type_ : FieldType
}.

(** [bigquery.TableMetadata], the three fields that are read. *)
Record TableMetadata : Type := mkTableMetadata {
  FullID : string;
  Description : string;
  Schema : list FieldSchema
}.

(** [bigquery.Table]: the identifiers of a table.  Its metadata is not
    part of the value, it is fetched by [table.Metadata(ctx)]. *)
Record Table : Type := mkTable {
  ProjectID : string;
  DatasetID : string;
  TableID : string
}.

(** The results of the successive [tableIterator.Next()] calls: tables,
    then [iterator.Done] or some other error.  A listing is finite. *)
Inductive TableIterator : Type :=
| NextDone
| NextError (err : error)
| NextTable (table : Table) (rest : TableIterator).

End bigquery.

Import bigquery.

(** What [reflect] prints for the types named in [main.go]. *)
Module reflect.
(** [typeOfByteSlice.String()] *)
Definition typeOfByteSlice_String : string := "[]uint8".
(** [typeOfDate.String()], [typeOfDate.PkgPath()] and so on *)
Definition typeOfDate_String : string := "civil.Date".
Definition typeOfDate_PkgPath : string := "cloud.google.com/go/civil".
Definition typeOfTime_String : string := "civil.Time".
Definition typeOfTime_PkgPath : string := "cloud.google.com/go/civil".
Definition typeOfDateTime_String : string := "civil.DateTime".
Definition typeOfDateTime_PkgPath : string := "cloud.google.com/go/civil".
Definition typeOfGoTime_String : string := "time.Time".
Definition typeOfGoTime_PkgPath : string := "time".
Definition typeOfRat_String : string := "*big.Rat".
(** [reflect.TypeOf(big.Rat{}).PkgPath()] *)
Definition bigRat_PkgPath : string := "math/big".
(** [reflect.Int64.String()] and the other kinds *)
Definition Int64_String : string := "int64".
Definition String_String : string := "string".
Definition Bool_String : string := "bool".
Definition Float64_String : string := "float64".
End reflect.

(** ** [capitalizeInitial] *)

(** [s[:1]] is the first byte of [s] and [s[1:]] the bytes after it. *)
Definition capitalizeInitial (s : string) : string :=
  match s with
  | EmptyString => ""
  | String c rest => (GoStrings.ToUpper_byte c + rest)%go
  end.

(** ** [bigqueryFieldTypeToGoType] *)

(** The error of the [RecordFieldType] case and of the [default] case:
    [FieldType] has no [String] method, so [%s] prints the value itself. *)
Definition notSupported (t : FieldType) : error :=
  errorString ("bigquery.FieldType not supported. bigquery.FieldType=" + t)%go.

(** The [switch], case by case in the order of the source. *)
Definition bigqueryFieldTypeToGoType (bigqueryFieldType : FieldType)
  : string * string * option error :=
  if String.eqb bigqueryFieldType BytesFieldType then
    (reflect.typeOfByteSlice_String, "", None)
  else if String.eqb bigqueryFieldType DateFieldType then
    (reflect.typeOfDate_String, reflect.typeOfDate_PkgPath, None)
  else if String.eqb bigqueryFieldType TimeFieldType then
    (reflect.typeOfTime_String, reflect.typeOfTime_PkgPath, None)
  else if String.eqb bigqueryFieldType DateTimeFieldType then
    (reflect.typeOfDateTime_String, reflect.typeOfDateTime_PkgPath, None)
  else if String.eqb bigqueryFieldType TimestampFieldType then
    (reflect.typeOfGoTime_String, reflect.typeOfGoTime_PkgPath, None)
  else if String.eqb bigqueryFieldType NumericFieldType then
    (reflect.typeOfRat_String, reflect.bigRat_PkgPath, None)
  else if String.eqb bigqueryFieldType IntegerFieldType then
    (reflect.Int64_String, "", None)
  else if String.eqb bigqueryFieldType RecordFieldType then
    ("", "", Some (notSupported bigqueryFieldType))
  else if String.eqb bigqueryFieldType StringFieldType
          || String.eqb bigqueryFieldType GeographyFieldType then
    (reflect.String_String, "", None)
  else if String.eqb bigqueryFieldType BooleanFieldType then
    (reflect.Bool_String, "", None)
  else if String.eqb bigqueryFieldType FloatFieldType then
    (reflect.Float64_String, "", None)
  else
    ("", "", Some (notSupported bigqueryFieldType)).

(** ** [getOptOrEnvOrDefault] *)

(** [os.Getenv]: the value of the variable, empty when it is not set. *)
Definition Getenv (env : gmap string string) (key : string) : string :=
  default "" (env !! key).

Definition getOptOrEnvOrDefault (env : gmap string string)
    (optKey optValue envKey defaultValue : string) : string * option error :=
  if String.eqb optKey "" then ("", Some (errorString "optKey is empty"))
  else if negb (String.eqb optValue "") then (optValue, None)
  else
    let envValue := Getenv env envKey in
    if negb (String.eqb envValue "") then (envValue, None)
    else if negb (String.eqb defaultValue "") then (defaultValue, None)
    else ("", Some (errorString
            ("set option -" + optKey + ", or set environment variable " + envKey)%go)).

(** ** [generateImportPackagesCode] *)

(** Go's [for pkg := range m] visits every key of [m] once, in an order the
    runtime picks.  A run of the program ranges over the map of import
    packages once, so the order it meets is a parameter of the run. *)
Class MapRange : Type := {
  rangeKeys : gmap string bool → list string;
  rangeKeys_perm : ∀ m, rangeKeys m ≡ₚ (map_to_list m).*1
}.

(** The first loop: [importPackagesUniq[pkg] = true] for every package. *)
Definition uniq (importPackages : list string) : gmap string bool :=
  foldl (λ importPackagesUniq pkg, <[pkg:=true]> importPackagesUniq) ∅ importPackages.

Definition generateImportPackagesCode `{MapRange} (importPackages : list string)
  : string :=
  let importPackagesUniq := uniq importPackages in
  if (size importPackagesUniq =? 0)%nat then ""
  else if (size importPackagesUniq =? 1)%nat then
    let generatedCode :=
      foldl (λ _ pkg, "import " + dquote + pkg + dquote + nl)%go ""
            (rangeKeys importPackagesUniq) in
    (generatedCode + nl)%go
  else if (2 <=? size importPackagesUniq)%nat then
    let generatedCode :=
      foldl (λ generatedCode pkg, generatedCode + tab + dquote + pkg + dquote + nl)%go
            ("import (" + nl)%go (rangeKeys importPackagesUniq) in
    (generatedCode + ")" + nl + nl)%go
  else "".

(** ** The collaborators of a run and the functions that call them *)

Section Run.

(** What [fmt] prints for [%#v] of a [*bigquery.Table]. *)
Variable GoSyntax : Table → string.
(** [table.Metadata(ctx)] *)
Variable Metadata : Table → error + TableMetadata.
(** [client.Dataset(datasetID).Tables(ctx)] *)
Variable Tables : string → TableIterator.
(** [format.Source] and [imports.Process("", _, nil)] *)
Variable format_Source : string → error + string.
Variable imports_Process : string → error + string.
Context `{MapRange}.

(** The loop over [schemas] in [generateTableSchemaCode], with the two
    variables it updates.  A failing column returns from the function. *)
Fixpoint schemasLoop (schemas : list FieldSchema) (generatedCode : string)
    (importPackages : list string) : string * list string * option error :=
  match schemas with
  | [] => (generatedCode, importPackages, None)
  | schema :: schemas =>
      let '(goTypeStr, pkg, err) := bigqueryFieldTypeToGoType (Type_ schema) in
      match err with
      | Some err => ("", [], Some (Errorf_w "bigqueryFieldTypeToGoType: " err))
      | None =>
          let importPackages :=
            if negb (String.eqb pkg "") then importPackages ++ [pkg]
            else importPackages in
          let generatedCode :=
            (generatedCode + tab + capitalizeInitial (Name schema) + " " + goTypeStr
             + " `bigquery:" + dquote + Name schema + dquote + "`" + nl)%go in
          schemasLoop schemas generatedCode importPackages
      end
  end.

Definition generateTableSchemaCode (table : Table)
  : string * list string * option error :=
  if (String.length (TableID table) =? 0)%nat then
    ("", [], Some (errorString
       ("*bigquery.Table.TableID is empty. *bigquery.Table struct dump: "
        + GoSyntax table)%go))
  else
    let structName := capitalizeInitial (TableID table) in
    match Metadata table with
    | inl err => ("", [], Some (Errorf_w "table.Metadata: " err))
    | inr md =>
        let generatedCode :=
          ("// " + structName + " is BigQuery Table `" + FullID md
           + "` schema struct." + nl
           + "// Description: " + Description md + nl
           + "type " + structName + " struct {" + nl)%go in
        match schemasLoop (Schema md) generatedCode [] with
        | (_, _, Some err) => ("", [], Some err)
        | (generatedCode, importPackages, None) =>
            ((generatedCode + "}" + nl)%go, importPackages, None)
        end
    end.

(** The [for] loop of [getAllTables], with the slice it appends to. *)
Fixpoint getAllTablesLoop (tableIterator : TableIterator) (tables : list Table)
  : list Table * option error :=
  match tableIterator with
  | NextTable table rest => getAllTablesLoop rest (tables ++ [table])
  | NextDone => (tables, None)
  | NextError err => ([], Some (Errorf_w "tableIterator.Next: " err))
  end.

Definition getAllTables (datasetID : string) : list Table * option error :=
  getAllTablesLoop (Tables datasetID) [].

Definition head : string :=
  ("// Code generated by go run github.com/djeeno/bqtableschema; DO NOT EDIT." + nl
   + nl
   + "//go:generate go run github.com/djeeno/bqtableschema" + nl
   + nl
   + "package bqtableschema" + nl
   + nl)%go.

(** [log.Printf("generateTableSchemaCode: %v\n", err)]: the line handed to
    the logger. *)
Definition logLine (err : error) : string :=
  ("generateTableSchemaCode: " + Error err + nl)%go.

(** The loop over [tables] in [Generate]: [tail], [importPackages] and the
    lines logged so far. *)
Fixpoint tablesLoop (tables : list Table) (tail : string)
    (importPackages : list string) (logged : list string)
  : string * list string * list string :=
  match tables with
  | [] => (tail, importPackages, logged)
  | table :: tables =>
      let '(structCode, pkgs, err) := generateTableSchemaCode table in
      match err with
      | Some err => tablesLoop tables tail importPackages (logged ++ [logLine err])
      | None =>
          let importPackages :=
            if (0 <? length pkgs)%nat then importPackages ++ pkgs
            else importPackages in
          tablesLoop tables (tail + structCode)%go importPackages logged
      end
  end.

(** [Generate] returns the lines it logged with its two results; a [nil]
    byte slice is [None]. *)
Definition Generate (dataset : string)
  : list string * (option string * option error) :=
  match getAllTables dataset with
  | (_, Some err) => ([], (None, Some (Errorf_w "getAllTables: " err)))
  | (tables, None) =>
      let '(tail, importPackages, logged) := tablesLoop tables "" [] [] in
      let importCode := generateImportPackagesCode importPackages in
      let code := (head + importCode + tail)%go in
      match format_Source code with
      | inl err => (logged, (None, Some (Errorf_w "format.Source: " err)))
      | inr genFmt =>
          match imports_Process genFmt with
          | inl err => (logged, (None, Some (Errorf_w "imports.Process: " err)))
          | inr genImports => (logged, (Some genImports, None))
          end
      end
  end.

End Run.

(** ** Reference definitions used by the statements *)

(** The table of the field-type mapper: semantic type, Go type name, import
    path (empty when none is needed). *)
Definition mappingTable : list (FieldType * (string * string)) :=
  [ (StringFieldType, ("string", ""));
    (GeographyFieldType, ("string", ""));
    (BytesFieldType, ("[]uint8", ""));
    (IntegerFieldType, ("int64", ""));
    (FloatFieldType, ("float64", ""));
    (BooleanFieldType, ("bool", ""));
    (TimestampFieldType, ("time.Time", "time"));
    (DateFieldType, ("civil.Date", "cloud.google.com/go/civil"));
    (TimeFieldType, ("civil.Time", "cloud.google.com/go/civil"));
    (DateTimeFieldType, ("civil.DateTime", "cloud.google.com/go/civil"));
    (NumericFieldType, ("*big.Rat", "math/big")) ].

(** The supported semantic types are the keys of the table. *)
Definition supported : list FieldType := mappingTable.*1.

(** The texts of a list of lines, one after the other. *)
Definition joinLines (lines : list string) : string := foldr String.append "" lines.

(** [s] is not the empty string. *)
Definition nonEmpty (s : string) : bool := negb (String.eqb s "").

(** A byte string of two bytes: the UTF-8 encoding of U+00E9 (e acute). *)
Definition eAcute : string := String "195"%char (String "169"%char "").

(** A byte string of two bytes: the UTF-8 encoding of U+00C9 (E acute). *)
Definition EAcute : string := String "195"%char (String "137"%char "").

(** The map iteration that visits the keys in the order of [map_to_list]. *)
#[local] Instance mapToListRange : MapRange :=
  {| rangeKeys := λ m, (map_to_list m).*1;
     rangeKeys_perm := λ m, reflexivity _ |}.

(** One line of a grouped import block. *)
Definition importLine (pkg : string) : string :=
  (tab + dquote + pkg + dquote + nl)%go.

(** The three results of the mapper for a column. *)
Definition goTypeOf (schema : FieldSchema) : string :=
  (bigqueryFieldTypeToGoType (Type_ schema)).1.1.
Definition pkgOf (schema : FieldSchema) : string :=
  (bigqueryFieldTypeToGoType (Type_ schema)).1.2.
Definition mapperError (schema : FieldSchema) : option error :=
  (bigqueryFieldTypeToGoType (Type_ schema)).2.

(** The field line of a column: the capitalized column name, the mapped type
    name, and the tag that carries the column name as it is. *)
Definition fieldLine (schema : FieldSchema) : string :=
  (tab + capitalizeInitial (Name schema) + " " + goTypeOf schema
   + " `bigquery:" + dquote + Name schema + dquote + "`" + nl)%go.

(** The import paths of the columns, in column order, the empty ones left
    out. *)
Definition importsOf (schemas : list FieldSchema) : list string :=
  List.filter nonEmpty (pkgOf <$> schemas).

(** The error that ends a listing, if one does. *)
Fixpoint iteratorError (tableIterator : TableIterator) : option error :=
  match tableIterator with
  | NextDone => None
  | NextError err => Some err
  | NextTable _ rest => iteratorError rest
  end.

(** The tables of a listing, in the order they are yielded. *)
Fixpoint iteratorTables (tableIterator : TableIterator) : list Table :=
  match tableIterator with
  | NextDone | NextError _ => []
  | NextTable table rest => table :: iteratorTables rest
  end.

Section Documents.
(** [gen] stands for [generateTableSchemaCode] with its collaborators. *)
Variable gen : Table → string * list string * option error.

(** The struct texts of the tables whose generation succeeds, in table
    order; a table whose generation fails contributes nothing. *)
Definition structTexts (tables : list Table) : list string :=
  flat_map (λ table, match gen table with
                     | (structCode, _, None) => [structCode]
                     | _ => []
                     end) tables.

(** The import paths of the tables whose generation succeeds. *)
Definition structImports (tables : list Table) : list string :=
  flat_map (λ table, match gen table with
                     | (_, pkgs, None) => pkgs
                     | _ => []
                     end) tables.

(** One logged line for each table whose generation fails. *)
Definition skipped (tables : list Table) : list string :=
  flat_map (λ table, match gen table with
                     | (_, _, Some err) => [logLine err]
                     | _ => []
                     end) tables.

(** The text handed to the formatter: the header, the import block, the
    struct texts. *)
Definition rawDocument `{MapRange} (tables : list Table) : string :=
  (head + generateImportPackagesCode (structImports tables)
   + joinLines (structTexts tables))%go.
End Documents.

(** A small dataset to run the functions on: two good tables, one with a
    record column, one whose metadata cannot be fetched, one with no name. *)
Definition demoGoSyntax (table : Table) : string :=
  ("&bigquery.Table{ProjectID:" + ProjectID table + ", DatasetID:"
   + DatasetID table + ", TableID:" + TableID table + "}")%go.

Definition orders : Table := mkTable "p" "d" "orders".
Definition events : Table := mkTable "p" "d" "events".
Definition nested : Table := mkTable "p" "d" "nested".
Definition missing : Table := mkTable "p" "d" "missing".
Definition unnamed : Table := mkTable "p" "d" "".

Definition ordersMetadata : TableMetadata :=
  mkTableMetadata "p:d.orders" ""
    [mkFieldSchema "id" IntegerFieldType; mkFieldSchema "total" FloatFieldType].
Definition eventsMetadata : TableMetadata :=
  mkTableMetadata "p:d.events" "event log" [mkFieldSchema "ts" TimestampFieldType].
Definition nestedMetadata : TableMetadata :=
  mkTableMetadata "p:d.nested" ""
    [mkFieldSchema "at" DateFieldType; mkFieldSchema "payload" RecordFieldType;
     mkFieldSchema "n" NumericFieldType].
Definition notFound : error := errorString "notFound".

Definition demoMetadata (table : Table) : error + TableMetadata :=
  if String.eqb (TableID table) "orders" then inr ordersMetadata
  else if String.eqb (TableID table) "events" then inr eventsMetadata
  else if String.eqb (TableID table) "nested" then inr nestedMetadata
  else inl notFound.

(** The dataset [d] lists four tables; the listing of any other dataset
    fails after its first table. *)
Definition demoTables (datasetID : string) : TableIterator :=
  if String.eqb datasetID "d" then
    NextTable orders (NextTable nested (NextTable missing (NextTable events NextDone)))
  else NextTable orders (NextError notFound).

(** A formatter that refuses its input, and one that accepts everything. *)
Definition refuse (code : string) : error + string := inl (errorString "refused").
Definition accept (code : string) : error + string := inr code.

(** A listing that yields the table [missing] and ends. *)
Definition onlyMissing (datasetID : string) : TableIterator :=
  NextTable missing NextDone.

(** ** [Run] and what it works on *)

(** The constants of [main.go]. *)
Definition optNameProjectID : string := "project".
Definition optNameDataset : string := "dataset".
Definition optNameKeyFile : string := "keyfile".
Definition optNameOutputFile : string := "output".
Definition envNameGoogleApplicationCredentials : string :=
  "GOOGLE_APPLICATION_CREDENTIALS".
Definition envNameGCloudProjectID : string := "GCLOUD_PROJECT_ID".
Definition envNameBigQueryDataset : string := "BIGQUERY_DATASET".
Definition envNameOutputFile : string := "OUTPUT_FILE".
Definition defaultValueEmpty : string := "".
Definition defaultValueOutputFile : string := "bqtableschema.generated.go".

(** The package variables that [flag.Parse] fills in. *)
Record Options : Type := mkOptions {
  optValueProjectID : string;
  optValueDataset : string;
  optValueKeyFile : string;
  optValueOutputPath : string
}.

(** What [Run] uses of a [*bigquery.Client]: the listing of a dataset, the
    metadata of a table, and the result of [client.Close()]. *)
Record Client : Type := mkClient {
  clientTables : string → TableIterator;
  clientMetadata : Table → error + TableMetadata;
  clientClose : option error
}.

(** What [Run] reads and changes outside itself: the process environment,
    the files (path to content), and the lines given to the logger. *)
Record World : Type := mkWorld {
  environ : gmap string string;
  files : gmap string string;
  logged : list string
}.

(** [os.Setenv] and [ioutil.WriteFile]: each may fail; when it returns no
    error the variable is set, or the file holds exactly the data. *)
Class System : Type := {
  os_Setenv : gmap string string → string → string → gmap string string * option error;
  os_Setenv_nil : ∀ env key value env',
    os_Setenv env key value = (env', None) → env' = <[key:=value]> env;
  ioutil_WriteFile :
    gmap string string → string → string → gmap string string * option error;
  ioutil_WriteFile_nil : ∀ fs path data fs',
    ioutil_WriteFile fs path data = (fs', None) → fs' = <[path:=data]> fs
}.

(** [log.Printf("client.Close: %v\\n", err)]: the line handed to the logger. *)
Definition closeLine (err : error) : string :=
  ("client.Close: " + Error err + nl)%go.

Section RunDef.

Variable GoSyntax : Table → string.
(** [bigquery.NewClient(ctx, project)], which reads the credentials named
    by the environment. *)
Variable NewClient : gmap string string → string → error + Client.
Variable format_Source : string → error + string.
Variable imports_Process : string → error + string.
Context `{MapRange} `{System}.
Variable opts : Options.

(** The deferred function: it runs when [Run] returns after the client was
    made, and logs the error of [client.Close()] if there is one. *)
Definition deferredClose (client : Client) (w : World) : World :=
  match clientClose client with
  | Some err => mkWorld (environ w) (files w) (logged w ++ [closeLine err])
  | None => w
  end.

Definition Run (w : World) : World * option error :=
  let '(filePath, err) :=
    getOptOrEnvOrDefault (environ w) optNameOutputFile (optValueOutputPath opts)
      envNameOutputFile defaultValueOutputFile in
  match err with
  | Some err => (w, Some (Errorf_w "getOptOrEnvOrDefault: " err))
  | None =>
  let '(keyfile, err) :=
    getOptOrEnvOrDefault (environ w) optNameKeyFile (optValueKeyFile opts)
      envNameGoogleApplicationCredentials "" in
  match err with
  | Some err => (w, Some (Errorf_w "getOptOrEnvOrDefault: " err))
  | None =>
  let '(project, err) :=
    getOptOrEnvOrDefault (environ w) optNameProjectID (optValueProjectID opts)
      envNameGCloudProjectID "" in
  match err with
  | Some err => (w, Some (Errorf_w "getOptOrEnvOrDefault: " err))
  | None =>
  let '(dataset, err) :=
    getOptOrEnvOrDefault (environ w) optNameDataset (optValueDataset opts)
      envNameBigQueryDataset "" in
  match err with
  | Some err => (w, Some (Errorf_w "getOptOrEnvOrDefault: " err))
  | None =>
  let '(env, err) :=
    if negb (String.eqb (Getenv (environ w) envNameGoogleApplicationCredentials)
                        keyfile)
    then os_Setenv (environ w) envNameGoogleApplicationCredentials keyfile
    else (environ w, None) in
  match err with
  | Some err => (mkWorld env (files w) (logged w), Some (Errorf_w "os.Setenv: " err))
  | None =>
  match NewClient env project with
  | inl err =>
      (mkWorld env (files w) (logged w), Some (Errorf_w "bigquery.NewClient: " err))
  | inr client =>
      let '(lines, (generatedCode, err)) :=
        Generate GoSyntax (clientMetadata client) (clientTables client)
          format_Source imports_Process dataset in
      match err with
      | Some err =>
          (deferredClose client (mkWorld env (files w) (logged w ++ lines)),
           Some (Errorf_w "Generate: " err))
      | None =>
          let '(fs, err) :=
            ioutil_WriteFile (files w) filePath (default "" generatedCode) in
          match err with
          | Some err =>
              (deferredClose client (mkWorld env fs (logged w ++ lines)),
               Some (Errorf_w "ioutil.WriteFile: " err))
          | None =>
              (deferredClose client (mkWorld env fs (logged w ++ lines)), None)
          end
      end
  end
  end end end end end.

End RunDef.

(** A system whose calls always succeed, a client for the small dataset, and
    clients that fail. *)
#[local] Instance demoSystem : System :=
  {| os_Setenv := λ env key value, (<[key:=value]> env, None);
     os_Setenv_nil := λ env key value env' Heq,
       eq_sym (f_equal fst Heq);
     ioutil_WriteFile := λ fs path data, (<[path:=data]> fs, None);
     ioutil_WriteFile_nil := λ fs path data fs' Heq,
       eq_sym (f_equal fst Heq) |}.

Definition closeFailed : error := errorString "close failed".
Definition demoClient : Client := mkClient demoTables demoMetadata (Some closeFailed).
Definition demoNewClient (env : gmap string string) (project : string)
  : error + Client :=
  if String.eqb project "p" then inr demoClient else inl notFound.

Definition demoOptions : Options := mkOptions "p" "d" "key.json" "".
Definition emptyWorld : World := mkWorld ∅ ∅ [].

(** The import paths that the mapper can return. *)
Definition importPaths : list string :=
  ["time"; "cloud.google.com/go/civil"; "math/big"].

(** The value a setting gets: the first non-empty one of the option value,
    the value of the environment variable and the default value. *)
Definition setting (env : gmap string string) (optValue envKey defaultValue : string)
  : option string :=
  List.find nonEmpty [optValue; Getenv env envKey; defaultValue].


(** A map iteration that visits the keys in the order opposite to that of
    [mapToListRange]. *)
Definition reverseRange : MapRange :=
  {| rangeKeys := λ m, reverse (map_to_list m).*1;
     rangeKeys_perm := λ m, reverse_Permutation _ |}.

(** The error of [getOptOrEnvOrDefault] for a setting that has no value. *)
Definition missingSetting (optKey envKey : string) : error :=
  errorString
    ("set option -" + optKey + ", or set environment variable " + envKey)%go.

(** The world after [Run] on the small dataset, from an empty world; and
    after [Run] with a formatter that refuses. *)
Definition demoDone : World :=
  (Run demoGoSyntax demoNewClient accept accept demoOptions emptyWorld).1.
Definition demoRefused : World :=
  (Run demoGoSyntax demoNewClient refuse accept demoOptions emptyWorld).1.
Definition refusedError : error :=
  Errorf_w "Generate: " (Errorf_w "format.Source: " (errorString "refused")).

(** * Facts about strings *)

Lemma append_cons (c : ascii) (s t : string) :
  String.append (String c s) t = String c (String.append s t).
Proof. reflexivity. Qed.

Lemma append_nil_l (s : string) : String.append "" s = s.
Proof. reflexivity. Qed.

Lemma append_nil_r (s : string) : String.append s "" = s.
Proof. induction s as [|c s IH]; [reflexivity|]. rewrite append_cons, IH. reflexivity. Qed.

Lemma append_assoc (s t u : string) :
  String.append (String.append s t) u = String.append s (String.append t u).
Proof.
  induction s as [|c s IH]; [reflexivity|].
  rewrite !append_cons, IH. reflexivity.
Qed.

Lemma length_append (s t : string) :
  String.length (String.append s t) = (String.length s + String.length t)%nat.
Proof.
  induction s as [|c s IH]; [reflexivity|].
  rewrite append_cons. simpl. rewrite IH. reflexivity.
Qed.

Lemma length_zero_empty (s : string) : String.length s = 0%nat ↔ s = "".
Proof. destruct s; simpl; split; intros; congruence. Qed.

(** * The field-type mapper *)

(** C1: every supported semantic type is mapped, with no error, to the pair
    of Go type name and import path that the table of the mapper gives:
    string and geography to [string], bytes to [[]uint8], integer to
    [int64], float to [float64], boolean to [bool], all with no import;
    timestamp to [time.Time] importing [time]; date, time and date-time to
    [civil.Date], [civil.Time] and [civil.DateTime] importing the civil
    package; numeric to [*big.Rat] importing [math/big]. *)
Theorem bigqueryFieldTypeToGoType_supported :
  Forall (λ '(t, (goType, pkg)), bigqueryFieldTypeToGoType t = (goType, pkg, None))
         mappingTable.
Proof. unfold mappingTable. repeat constructor. Qed.

Lemma eqb_false_of_not_supported (t u : FieldType) :
  t ∉ supported → u ∈ supported → String.eqb t u = false.
Proof.
  intros Hnot Hin. apply String.eqb_neq. intros ->. exact (Hnot Hin).
Qed.

Lemma supported_elem (u : FieldType) :
  u ∈ supported ↔
  u = StringFieldType ∨ u = GeographyFieldType ∨ u = BytesFieldType ∨
  u = IntegerFieldType ∨ u = FloatFieldType ∨ u = BooleanFieldType ∨
  u = TimestampFieldType ∨ u = DateFieldType ∨ u = TimeFieldType ∨
  u = DateTimeFieldType ∨ u = NumericFieldType.
Proof.
  unfold supported, mappingTable. simpl.
  rewrite !elem_of_cons, elem_of_nil. tauto.
Qed.

Ltac not_supported H u :=
  rewrite (eqb_false_of_not_supported _ u H) by (apply supported_elem; tauto).

(** C2: a semantic type outside the supported ones (the record type, or any
    value that is not in the enumeration) gives an error whose message ends
    with the offending type name, and empty type name and import path. *)
Theorem bigqueryFieldTypeToGoType_unsupported (t : FieldType) :
  t ∉ supported →
  (RecordFieldType ∉ supported) ∧
  bigqueryFieldTypeToGoType t =
    ("", "",
     Some (errorString
             ("bigquery.FieldType not supported. bigquery.FieldType=" + t)%go)).
Proof.
  intros Hnot. split.
  { rewrite supported_elem. intros Hin. repeat destruct Hin as [Hin|Hin]; discriminate Hin. }
  unfold bigqueryFieldTypeToGoType.
  not_supported Hnot BytesFieldType. not_supported Hnot DateFieldType.
  not_supported Hnot TimeFieldType. not_supported Hnot DateTimeFieldType.
  not_supported Hnot TimestampFieldType. not_supported Hnot NumericFieldType.
  not_supported Hnot IntegerFieldType. not_supported Hnot StringFieldType.
  not_supported Hnot GeographyFieldType. not_supported Hnot BooleanFieldType.
  not_supported Hnot FloatFieldType.
  simpl. destruct (String.eqb t RecordFieldType); reflexivity.
Qed.

Lemma bigqueryFieldTypeToGoType_unsupported_witness :
  bigqueryFieldTypeToGoType "unknownFieldType" =
    ("", "",
     Some (errorString
             "bigquery.FieldType not supported. bigquery.FieldType=unknownFieldType")).
Proof.
  refine (proj2 (bigqueryFieldTypeToGoType_unsupported "unknownFieldType" _)).
  rewrite supported_elem. intros Hin. repeat destruct Hin as [Hin|Hin]; discriminate Hin.
Defined.

(** * [capitalizeInitial] *)

Lemma ToUpper_byte_ascii_fixed (c : ascii) :
  GoStrings.isRuneSelf c = false →
  ∃ C, GoStrings.ToUpper_byte c = String C "" ∧
       GoStrings.isRuneSelf C = false ∧ GoStrings.isLower C = false.
Proof.
  intros Hc. unfold GoStrings.ToUpper_byte. rewrite Hc.
  destruct (GoStrings.isLower c) eqn:Hl.
  - eexists. split; [reflexivity|].
    unfold GoStrings.isLower in Hl. apply andb_true_iff in Hl as [H1 H2].
    apply Nat.leb_le in H1, H2.
    unfold GoStrings.isRuneSelf, GoStrings.isLower.
    rewrite nat_ascii_embedding by lia.
    split; [apply Nat.leb_gt; lia|].
    apply andb_false_iff. left. apply Nat.leb_gt. lia.
  - exists c. auto.
Qed.

Lemma capitalizeInitial_ascii_fixed (c : ascii) (rest : string) :
  GoStrings.isRuneSelf c = false → GoStrings.isLower c = false →
  capitalizeInitial (String c rest) = String c rest.
Proof.
  intros Hc Hl. unfold capitalizeInitial, GoStrings.ToUpper_byte.
  rewrite Hc, Hl. reflexivity.
Qed.

Lemma capitalizeInitial_length_nonascii (c : ascii) (rest : string) :
  GoStrings.isRuneSelf c = true →
  capitalizeInitial (String c rest) = String.append GoStrings.RuneError rest.
Proof.
  intros Hc. unfold capitalizeInitial, GoStrings.ToUpper_byte. rewrite Hc. reflexivity.
Qed.

(** X19: on names in ASCII the function capitalizes: the empty string is
    returned empty; each of the twenty-six lower-case ASCII letters, alone,
    gives the upper-case letter at the same place of the alphabet; a string
    whose first byte is ASCII and not a lower-case letter (an upper-case
    letter in particular) is returned unchanged; and for a string that is
    empty or starts with an ASCII byte, applying the function twice gives
    the same as applying it once. *)
Theorem capitalizeInitial_ascii :
  capitalizeInitial "" = "" ∧
  (∀ i c, String.get i "abcdefghijklmnopqrstuvwxyz" = Some c →
     ∃ C, String.get i "ABCDEFGHIJKLMNOPQRSTUVWXYZ" = Some C ∧
          capitalizeInitial (String c "") = String C "") ∧
  (∀ c rest, GoStrings.isRuneSelf c = false → GoStrings.isLower c = false →
     capitalizeInitial (String c rest) = String c rest) ∧
  (∀ s, (s = "" ∨ ∃ c rest, s = String c rest ∧ GoStrings.isRuneSelf c = false) →
        capitalizeInitial (capitalizeInitial s) = capitalizeInitial s).
Proof.
  split; [reflexivity|]. split; [|split].
  - intros i c Hget.
    do 26 (destruct i as [|i];
           [injection Hget as <-; eexists; split; reflexivity|]).
    simpl in Hget. discriminate Hget.
  - exact capitalizeInitial_ascii_fixed.
  - intros s [->|(c & rest & -> & Hc)]; [reflexivity|].
    destruct (ToUpper_byte_ascii_fixed c Hc) as (C & HC & HC1 & HC2).
    unfold capitalizeInitial at 2 3. rewrite HC, append_cons, append_nil_l.
    apply capitalizeInitial_ascii_fixed; assumption.
Qed.

Lemma capitalizeInitial_ascii_witness :
  capitalizeInitial "Orders" = "Orders" ∧
  capitalizeInitial (capitalizeInitial "orders") = capitalizeInitial "orders".
Proof.
  destruct capitalizeInitial_ascii as (_ & _ & Hfixed & Hidem). split.
  - apply (Hfixed "O"%char "rders"); reflexivity.
  - apply (Hidem "orders"). right. exists "o"%char, "rders".
    split; reflexivity.
Defined.

(** C8: the code on a name that starts with a letter outside ASCII.  The
    slice [s[:1]] holds the first byte of the letter only, and
    [strings.ToUpper] replaces that lone byte by U+FFFD.  So the single
    lower-case letter e acute (two bytes) does not give the upper-case
    E acute; applying [capitalizeInitial] twice to it differs from applying
    it once; and the upper-case E acute, which is already capitalized, is
    not returned unchanged. *)
Lemma capitalizeInitial_not_idempotent :
  capitalizeInitial eAcute ≠ EAcute ∧
  capitalizeInitial (capitalizeInitial eAcute) ≠ capitalizeInitial eAcute ∧
  capitalizeInitial EAcute ≠ EAcute.
Proof. repeat split; intros Heq; vm_compute in Heq; discriminate Heq. Qed.

(** * [getOptOrEnvOrDefault] *)

Lemma nonEmpty_true (s : string) : nonEmpty s = true ↔ s ≠ "".
Proof.
  unfold nonEmpty. destruct (String.eqb_spec s ""); simpl; split; intros; congruence.
Qed.

Lemma nonEmpty_false (s : string) : nonEmpty s = false ↔ s = "".
Proof.
  unfold nonEmpty. destruct (String.eqb_spec s ""); simpl; split; intros; congruence.
Qed.

(** C10: with an empty option key the lookup fails; otherwise the result is
    the first non-empty value among the option value, the value of the
    environment variable and the default value, in that order, with no
    error; and it is an error, with the empty string as result, exactly when
    all three are empty. *)
Theorem getOptOrEnvOrDefault_precedence
    (env : gmap string string) (optKey optValue envKey defaultValue : string) :
  (optKey = "" →
     getOptOrEnvOrDefault env optKey optValue envKey defaultValue =
       ("", Some (errorString "optKey is empty"))) ∧
  (optKey ≠ "" →
     getOptOrEnvOrDefault env optKey optValue envKey defaultValue =
       match List.find nonEmpty [optValue; Getenv env envKey; defaultValue] with
       | Some value => (value, None)
       | None =>
           ("", Some (errorString
                  ("set option -" + optKey + ", or set environment variable "
                   + envKey)%go))
       end) ∧
  (optKey ≠ "" →
     (is_Some (getOptOrEnvOrDefault env optKey optValue envKey defaultValue).2 ↔
      optValue = "" ∧ Getenv env envKey = "" ∧ defaultValue = "")).
Proof.
  unfold getOptOrEnvOrDefault. split; [|split].
  - intros ->. reflexivity.
  - intros Hkey. apply String.eqb_neq in Hkey. rewrite Hkey. simpl.
    fold (nonEmpty optValue) (nonEmpty (Getenv env envKey)) (nonEmpty defaultValue).
    destruct (nonEmpty optValue); [reflexivity|].
    destruct (nonEmpty (Getenv env envKey)); [reflexivity|].
    destruct (nonEmpty defaultValue); reflexivity.
  - intros Hkey. apply String.eqb_neq in Hkey. rewrite Hkey. simpl.
    fold (nonEmpty optValue) (nonEmpty (Getenv env envKey)) (nonEmpty defaultValue).
    rewrite <- !nonEmpty_false.
    destruct (nonEmpty optValue), (nonEmpty (Getenv env envKey)),
      (nonEmpty defaultValue); simpl; split;
      try (intros [? Hsome]; discriminate Hsome);
      try (intros (? & ? & ?); discriminate); eauto.
Qed.

Lemma getOptOrEnvOrDefault_precedence_witness :
  getOptOrEnvOrDefault {[ "TEST_ENV_KEY" := "testEnvValue" ]}
    "testOptKey" "" "TEST_ENV_KEY" "testDefaultValue" = ("testEnvValue", None) ∧
  getOptOrEnvOrDefault ∅ "" "" "" "" = ("", Some (errorString "optKey is empty")).
Proof.
  split.
  - refine (proj1 (proj2 (getOptOrEnvOrDefault_precedence
      {[ "TEST_ENV_KEY" := "testEnvValue" ]}
      "testOptKey" "" "TEST_ENV_KEY" "testDefaultValue")) _).
    discriminate.
  - refine (proj1 (getOptOrEnvOrDefault_precedence ∅ "" "" "" "") _). reflexivity.
Defined.

(** * The import aggregator *)

Lemma uniq_fold_lookup (importPackages : list string) (m : gmap string bool)
    (pkg : string) :
  foldl (λ acc p, <[p:=true]> acc) m importPackages !! pkg =
    if decide (pkg ∈ importPackages) then Some true else m !! pkg.
Proof.
  revert m. induction importPackages as [|p l IH]; intros m; cbn [foldl].
  - rewrite decide_False by apply not_elem_of_nil. reflexivity.
  - rewrite IH. destruct (decide (pkg ∈ l)) as [Hin|Hnin].
    + rewrite decide_True by (right; exact Hin). reflexivity.
    + destruct (decide (pkg = p)) as [->|Hne].
      * rewrite decide_True by left. apply lookup_insert_eq.
      * rewrite decide_False by (rewrite elem_of_cons; tauto).
        apply lookup_insert_ne. congruence.
Qed.

Lemma uniq_lookup (importPackages : list string) (pkg : string) :
  is_Some (uniq importPackages !! pkg) ↔ pkg ∈ importPackages.
Proof.
  unfold uniq. rewrite uniq_fold_lookup, lookup_empty.
  destruct (decide (pkg ∈ importPackages)); split; intros Hx; eauto.
  - destruct Hx as [? Hx]. discriminate Hx.
  - contradiction.
Qed.

Section Range.
Context `{MapRange}.

Lemma rangeKeys_NoDup (m : gmap string bool) : NoDup (rangeKeys m).
Proof. rewrite rangeKeys_perm. apply NoDup_fst_map_to_list. Qed.

Lemma rangeKeys_elem (m : gmap string bool) (pkg : string) :
  pkg ∈ rangeKeys m ↔ is_Some (m !! pkg).
Proof.
  rewrite rangeKeys_perm, list_elem_of_fmap. split.
  - intros ([k v] & -> & Hin). apply elem_of_map_to_list in Hin. eauto.
  - intros [v Hv]. exists (pkg, v). split; [reflexivity|].
    apply elem_of_map_to_list. exact Hv.
Qed.

Lemma rangeKeys_length (m : gmap string bool) : length (rangeKeys m) = size m.
Proof. rewrite rangeKeys_perm, length_fmap. apply length_map_to_list. Qed.

Lemma import_block_fold (pkgs : list string) (init : string) :
  foldl (λ generatedCode pkg, generatedCode + tab + dquote + pkg + dquote + nl)%go
        init pkgs
  = String.append init (joinLines (importLine <$> pkgs)).
Proof.
  revert init. induction pkgs as [|pkg pkgs IH]; intros init; simpl.
  - symmetry. apply append_nil_r.
  - rewrite IH. unfold importLine. rewrite !append_assoc. reflexivity.
Qed.

(** C4: the text of the import block is decided by how many distinct
    references the input holds.  The distinct references are the keys the
    map iteration yields: each reference of the input is among them once,
    however often the input repeats it.  None gives the empty string; one
    gives a single import statement and a blank line; two or more give a
    grouped block with one line per distinct reference and a blank line. *)
Theorem generateImportPackagesCode_cardinality (importPackages : list string) :
  let distinct := rangeKeys (uniq importPackages) in
  NoDup distinct ∧
  (∀ pkg, pkg ∈ distinct ↔ pkg ∈ importPackages) ∧
  generateImportPackagesCode importPackages =
    match distinct with
    | [] => ""
    | [pkg] => ("import " + dquote + pkg + dquote + nl + nl)%go
    | _ => ("import (" + nl + joinLines (importLine <$> distinct) + ")" + nl + nl)%go
    end.
Proof.
  intros distinct. split; [apply rangeKeys_NoDup|]. split.
  { intros pkg. unfold distinct. rewrite rangeKeys_elem. apply uniq_lookup. }
  unfold generateImportPackagesCode.
  rewrite <- (rangeKeys_length (uniq importPackages)). fold distinct.
  destruct distinct as [|p1 [|p2 rest]]; simpl length.
  - reflexivity.
  - reflexivity.
  - change (S (S (length rest)) =? 0)%nat with false.
    change (S (S (length rest)) =? 1)%nat with false.
    change (2 <=? S (S (length rest)))%nat with true.
    cbv iota. rewrite import_block_fold, !append_assoc. reflexivity.
Qed.

End Range.

(** * The struct generator *)


Lemma mapper_results (schema : FieldSchema) :
  bigqueryFieldTypeToGoType (Type_ schema) =
    (goTypeOf schema, pkgOf schema, mapperError schema).
Proof.
  unfold goTypeOf, pkgOf, mapperError.
  destruct (bigqueryFieldTypeToGoType (Type_ schema)) as [[? ?] ?]. reflexivity.
Qed.

(** When every column maps, the loop appends one field line per column and
    the non-empty import paths, in column order. *)
Lemma schemasLoop_ok (schemas : list FieldSchema) (generatedCode : string)
    (importPackages : list string) :
  Forall (λ schema, mapperError schema = None) schemas →
  schemasLoop schemas generatedCode importPackages =
    (String.append generatedCode (joinLines (fieldLine <$> schemas)),
     importPackages ++ importsOf schemas, None).
Proof.
  intros Hok. revert generatedCode importPackages.
  induction Hok as [|schema schemas Hschema _ IH]; intros generatedCode importPackages.
  - simpl. rewrite append_nil_r, app_nil_r. reflexivity.
  - cbn [schemasLoop]. rewrite mapper_results, Hschema, IH.
    unfold importsOf. cbn [fmap list_fmap List.filter joinLines foldr].
    fold (nonEmpty (pkgOf schema)).
    f_equal. f_equal.
    + unfold fieldLine. rewrite !append_assoc. reflexivity.
    + destruct (nonEmpty (pkgOf schema)); [|reflexivity].
      rewrite <- app_assoc. reflexivity.
Qed.

(** The first column that does not map ends the loop with its error. *)
Lemma schemasLoop_fail (before after : list FieldSchema) (schema : FieldSchema)
    (err : error) (generatedCode : string) (importPackages : list string) :
  Forall (λ schema, mapperError schema = None) before →
  mapperError schema = Some err →
  schemasLoop (before ++ schema :: after) generatedCode importPackages =
    ("", [], Some (Errorf_w "bigqueryFieldTypeToGoType: " err)).
Proof.
  intros Hok Herr. revert generatedCode importPackages.
  induction Hok as [|s before Hs _ IH]; intros generatedCode importPackages.
  - cbn [app schemasLoop]. rewrite mapper_results, Herr. reflexivity.
  - cbn [app schemasLoop]. rewrite mapper_results, Hs. apply IH.
Qed.

Lemma first_failing_column (schemas : list FieldSchema) :
  Exists (λ schema, is_Some (mapperError schema)) schemas →
  ∃ before schema after err,
    schemas = before ++ schema :: after ∧
    Forall (λ schema, mapperError schema = None) before ∧
    mapperError schema = Some err.
Proof.
  induction schemas as [|s schemas IH]; intros Hex.
  - inversion Hex.
  - destruct (mapperError s) as [err|] eqn:Hs.
    + exists [], s, schemas, err. split; [reflexivity|]. split; [constructor|exact Hs].
    + apply Exists_cons in Hex as [[e He]|Hex]; [congruence|].
      destruct (IH Hex) as (before & schema & after & err & -> & Hok & Herr).
      exists (s :: before), schema, after, err.
      split; [reflexivity|]. split; [constructor; assumption|exact Herr].
Qed.

Lemma TableID_length (table : Table) :
  TableID table ≠ "" → (String.length (TableID table) =? 0)%nat = false.
Proof.
  intros Hne. apply Nat.eqb_neq. intros Hlen. apply Hne.
  apply length_zero_empty. exact Hlen.
Qed.

Section RunFacts.

Variable GoSyntax : Table → string.
Variable Metadata : Table → error + TableMetadata.
Variable Tables : string → TableIterator.
Variable format_Source : string → error + string.
Variable imports_Process : string → error + string.
Context `{MapRange}.


(** C7: when the mapper fails for a column, struct generation returns the
    error of the first such column, wrapped with the name of the mapper, and
    both the struct text and the import list are empty: nothing gathered
    from the columns before it is returned. *)
Theorem generateTableSchemaCode_mapper_failure (table : Table) (md : TableMetadata) :
  TableID table ≠ "" →
  Metadata table = inr md →
  Exists (λ schema, is_Some (mapperError schema)) (Schema md) →
  ∃ before schema after err,
    Schema md = before ++ schema :: after ∧
    Forall (λ schema, mapperError schema = None) before ∧
    mapperError schema = Some err ∧
    err = notSupported (Type_ schema) ∧
    generateTableSchemaCode GoSyntax Metadata table =
      ("", [], Some (Errorf_w "bigqueryFieldTypeToGoType: " err)).
Proof.
  intros Hid Hmd Hex.
  destruct (first_failing_column _ Hex) as (before & schema & after & err & Hsplit & Hok & Herr).
  exists before, schema, after, err. repeat split; try assumption.
  - revert Herr. unfold mapperError, bigqueryFieldTypeToGoType.
    repeat match goal with
           | |- context [if ?b then _ else _] => destruct b
           end; simpl; congruence.
  - unfold generateTableSchemaCode.
    rewrite (TableID_length table Hid), Hmd, Hsplit.
    rewrite (schemasLoop_fail before after schema err _ _ Hok Herr). reflexivity.
Qed.

(** C9: for a table whose identifier is empty, struct generation returns an
    error whose message ends with the dump of the table it was given, and
    the struct text (and the import list) is empty. *)
Theorem generateTableSchemaCode_empty_TableID (table : Table) :
  TableID table = "" →
  generateTableSchemaCode GoSyntax Metadata table =
    ("", [],
     Some (errorString
             ("*bigquery.Table.TableID is empty. *bigquery.Table struct dump: "
              + GoSyntax table)%go)).
Proof.
  intros Hid. unfold generateTableSchemaCode. rewrite Hid. reflexivity.
Qed.

(** ** The document assembler *)

Lemma getAllTablesLoop_spec (tableIterator : TableIterator) (tables : list Table) :
  getAllTablesLoop tableIterator tables =
    match iteratorError tableIterator with
    | Some err => ([], Some (Errorf_w "tableIterator.Next: " err))
    | None => (tables ++ iteratorTables tableIterator, None)
    end.
Proof.
  revert tables. induction tableIterator as [|err|table rest IH]; intros tables; simpl.
  - rewrite app_nil_r. reflexivity.
  - reflexivity.
  - rewrite IH. destruct (iteratorError rest); [reflexivity|].
    rewrite <- app_assoc. reflexivity.
Qed.

Lemma tablesLoop_spec (tables : list Table) (tail : string)
    (importPackages logged : list string) :
  let gen := generateTableSchemaCode GoSyntax Metadata in
  tablesLoop GoSyntax Metadata tables tail importPackages logged =
    (String.append tail (joinLines (structTexts gen tables)),
     importPackages ++ structImports gen tables,
     logged ++ skipped gen tables).
Proof.
  intros gen. revert tail importPackages logged.
  induction tables as [|table tables IH]; intros tail importPackages logged.
  - simpl. rewrite append_nil_r, !app_nil_r. reflexivity.
  - cbn [tablesLoop]. unfold structTexts, structImports, skipped. cbn [flat_map].
    fold (structTexts gen tables) (structImports gen tables) (skipped gen tables).
    fold gen. destruct (gen table) as [[structCode pkgs] [err|]].
    + rewrite IH. cbn [app]. rewrite <- app_assoc. reflexivity.
    + rewrite IH. cbn [app].
      change (joinLines (structCode :: structTexts gen tables))
        with (String.append structCode (joinLines (structTexts gen tables))).
      rewrite append_assoc.
      destruct pkgs as [|pkg pkgs]; cbn [length Nat.ltb Nat.leb app].
      * reflexivity.
      * rewrite <- app_assoc. reflexivity.
Qed.

Lemma Generate_listed (dataset : string) (tables : list Table) :
  let gen := generateTableSchemaCode GoSyntax Metadata in
  getAllTables Tables dataset = (tables, None) →
  Generate GoSyntax Metadata Tables format_Source imports_Process dataset =
    match format_Source (rawDocument gen tables) with
    | inl err => (skipped gen tables, (None, Some (Errorf_w "format.Source: " err)))
    | inr genFmt =>
        match imports_Process genFmt with
        | inl err =>
            (skipped gen tables, (None, Some (Errorf_w "imports.Process: " err)))
        | inr genImports => (skipped gen tables, (Some genImports, None))
        end
    end.
Proof.
  intros gen Hlist. unfold Generate. rewrite Hlist, tablesLoop_spec.
  fold gen. cbn [app]. rewrite append_nil_l. reflexivity.
Qed.

(** C5: when the listing succeeds and the formatter and the import resolver
    accept the text, the run succeeds; it logs one line for each table whose
    struct generation fails; the text handed on holds the struct text of
    every table whose generation succeeds; and a failing table leaves the
    struct texts and imports of the tables before and after it as they
    are. *)
Theorem Generate_skips_failed_tables (dataset : string) (tables : list Table)
    (genFmt genImports : string) :
  let gen := generateTableSchemaCode GoSyntax Metadata in
  getAllTables Tables dataset = (tables, None) →
  format_Source (rawDocument gen tables) = inr genFmt →
  imports_Process genFmt = inr genImports →
  Generate GoSyntax Metadata Tables format_Source imports_Process dataset =
    (skipped gen tables, (Some genImports, None)) ∧
  (∀ table err, table ∈ tables → (gen table).2 = Some err →
     logLine err ∈ skipped gen tables) ∧
  (∀ table structCode pkgs, table ∈ tables → gen table = (structCode, pkgs, None) →
     structCode ∈ structTexts gen tables) ∧
  (∀ before table after err,
     tables = before ++ table :: after → (gen table).2 = Some err →
     structTexts gen tables = structTexts gen before ++ structTexts gen after ∧
     structImports gen tables = structImports gen before ++ structImports gen after).
Proof.
  intros gen Hlist Hfmt Himp. split; [|split; [|split]].
  - rewrite (Generate_listed dataset tables Hlist). fold gen.
    rewrite Hfmt, Himp. reflexivity.
  - intros table err Hin Herr. apply list_elem_of_In, in_flat_map.
    exists table. split; [apply list_elem_of_In; exact Hin|].
    destruct (gen table) as [[structCode pkgs] e]. simpl in Herr. subst e.
    left. reflexivity.
  - intros table structCode pkgs Hin Hgen. apply list_elem_of_In, in_flat_map.
    exists table. split; [apply list_elem_of_In; exact Hin|].
    rewrite Hgen. left. reflexivity.
  - intros before table after err -> Herr.
    unfold structTexts, structImports. rewrite !flat_map_app. cbn [flat_map].
    destruct (gen table) as [[structCode pkgs] e]. simpl in Herr. subst e.
    split; reflexivity.
Qed.

(** C6, as the code has it: a failure of the table listing, of the
    formatter or of the import resolver ends the run with that error wrapped
    and with no document.  A failure to fetch the metadata of a listed table
    does not end the run: struct generation for that table returns the error
    wrapped, with empty text and imports; the run logs that error between
    the lines of the tables before and after it; the text handed to the
    formatter is the one of the listing without that table; and when the
    formatter and the import resolver accept it the run returns the document
    and no error. *)
Theorem Generate_external_errors (dataset : string) :
  let gen := generateTableSchemaCode GoSyntax Metadata in
  let run := Generate GoSyntax Metadata Tables format_Source imports_Process in
  (∀ err, iteratorError (Tables dataset) = Some err →
     run dataset =
       ([], (None, Some (Errorf_w "getAllTables: "
                           (Errorf_w "tableIterator.Next: " err))))) ∧
  (∀ tables err,
     getAllTables Tables dataset = (tables, None) →
     format_Source (rawDocument gen tables) = inl err →
     (run dataset).2 = (None, Some (Errorf_w "format.Source: " err))) ∧
  (∀ tables genFmt err,
     getAllTables Tables dataset = (tables, None) →
     format_Source (rawDocument gen tables) = inr genFmt →
     imports_Process genFmt = inl err →
     (run dataset).2 = (None, Some (Errorf_w "imports.Process: " err))) ∧
  (∀ before table after err,
     getAllTables Tables dataset = (before ++ table :: after, None) →
     TableID table ≠ "" → Metadata table = inl err →
     gen table = ("", [], Some (Errorf_w "table.Metadata: " err)) ∧
     (run dataset).1 =
       skipped gen before ++ [logLine (Errorf_w "table.Metadata: " err)]
       ++ skipped gen after ∧
     rawDocument gen (before ++ table :: after) = rawDocument gen (before ++ after) ∧
     (∀ genFmt genImports,
        format_Source (rawDocument gen (before ++ after)) = inr genFmt →
        imports_Process genFmt = inr genImports →
        (run dataset).2 = (Some genImports, None))).
Proof.
  intros gen run. split; [|split; [|split]].
  - intros err Herr. unfold run, Generate, getAllTables.
    rewrite getAllTablesLoop_spec, Herr. reflexivity.
  - intros tables err Hlist Hfmt. unfold run.
    rewrite (Generate_listed dataset tables Hlist). fold gen. rewrite Hfmt. reflexivity.
  - intros tables genFmt err Hlist Hfmt Himp. unfold run.
    rewrite (Generate_listed dataset tables Hlist). fold gen.
    rewrite Hfmt, Himp. reflexivity.
  - intros before table after err Hlist Hid Hmd.
    assert (gen table = ("", [], Some (Errorf_w "table.Metadata: " err))) as Hgen.
    { unfold gen, generateTableSchemaCode.
      rewrite (TableID_length table Hid), Hmd. reflexivity. }
    assert (skipped gen (before ++ table :: after) =
            skipped gen before ++ [logLine (Errorf_w "table.Metadata: " err)]
            ++ skipped gen after) as Hskipped.
    { unfold skipped. rewrite flat_map_app. cbn [flat_map]. rewrite Hgen. reflexivity. }
    assert (rawDocument gen (before ++ table :: after) =
            rawDocument gen (before ++ after)) as Hraw.
    { unfold rawDocument, structImports, structTexts. rewrite !flat_map_app.
      cbn [flat_map]. rewrite Hgen. reflexivity. }
    split; [exact Hgen|]. split; [|split; [exact Hraw|]].
    + unfold run. rewrite (Generate_listed dataset _ Hlist). fold gen.
      rewrite <- Hskipped.
      destruct (format_Source _) as [e|genFmt]; [reflexivity|].
      destruct (imports_Process genFmt); reflexivity.
    + intros genFmt genImports Hfmt Himp. unfold run.
      rewrite (Generate_listed dataset _ Hlist). fold gen.
      rewrite Hraw, Hfmt, Himp. reflexivity.
Qed.

End RunFacts.

(** * The functions on the small dataset *)


Lemma generateTableSchemaCode_mapper_failure_witness :
  ∃ before schema after err,
    Schema nestedMetadata = before ++ schema :: after ∧
    Forall (λ schema, mapperError schema = None) before ∧
    mapperError schema = Some err ∧
    err = notSupported (Type_ schema) ∧
    generateTableSchemaCode demoGoSyntax demoMetadata nested =
      ("", [], Some (Errorf_w "bigqueryFieldTypeToGoType: " err)).
Proof.
  apply (generateTableSchemaCode_mapper_failure demoGoSyntax demoMetadata nested
           nestedMetadata).
  - discriminate.
  - reflexivity.
  - apply Exists_cons_tl, Exists_cons_hd. eexists. reflexivity.
Defined.

Example generateTableSchemaCode_nested :
  generateTableSchemaCode demoGoSyntax demoMetadata nested =
    ("", [],
     Some (wrapError
             "bigqueryFieldTypeToGoType: bigquery.FieldType not supported. bigquery.FieldType=RECORD"
             (errorString "bigquery.FieldType not supported. bigquery.FieldType=RECORD"))).
Proof. reflexivity. Qed.

Lemma generateTableSchemaCode_empty_TableID_witness :
  generateTableSchemaCode demoGoSyntax demoMetadata unnamed =
    ("", [],
     Some (errorString
             "*bigquery.Table.TableID is empty. *bigquery.Table struct dump: &bigquery.Table{ProjectID:p, DatasetID:d, TableID:}")).
Proof.
  apply (generateTableSchemaCode_empty_TableID demoGoSyntax demoMetadata unnamed).
  reflexivity.
Defined.

Example generateImportPackagesCode_two :
  generateImportPackagesCode [] = "" ∧
  generateImportPackagesCode ["time"; "time"] =
    ("import " + dquote + "time" + dquote + nl + nl)%go ∧
  generateImportPackagesCode ["time"; "math/big"; "time"; "math/big"] =
    ("import (" + nl
     + tab + dquote + "math/big" + dquote + nl
     + tab + dquote + "time" + dquote + nl
     + ")" + nl + nl)%go.
Proof. repeat split; vm_compute; reflexivity. Qed.

Lemma Generate_skips_failed_tables_witness :
  let gen := generateTableSchemaCode demoGoSyntax demoMetadata in
  Generate demoGoSyntax demoMetadata demoTables accept accept "d" =
    (skipped gen [orders; nested; missing; events],
     (Some (rawDocument gen [orders; nested; missing; events]), None)).
Proof.
  intros gen.
  refine (proj1 (Generate_skips_failed_tables demoGoSyntax demoMetadata demoTables
                   accept accept "d" [orders; nested; missing; events]
                   (rawDocument gen [orders; nested; missing; events])
                   (rawDocument gen [orders; nested; missing; events]) _ _ _));
    reflexivity.
Defined.

Example Generate_demo_log :
  (Generate demoGoSyntax demoMetadata demoTables accept accept "d").1 =
    [ ("generateTableSchemaCode: bigqueryFieldTypeToGoType: bigquery.FieldType not supported. bigquery.FieldType=RECORD" + nl)%go;
      ("generateTableSchemaCode: table.Metadata: notFound" + nl)%go ].
Proof. vm_compute. reflexivity. Qed.

Example Generate_demo_document :
  (Generate demoGoSyntax demoMetadata demoTables accept accept "d").2 =
    (Some
       (joinLines
          [ head;
            ("import " + dquote + "time" + dquote + nl)%go; nl;
            ("// Orders is BigQuery Table `p:d.orders` schema struct." + nl)%go;
            ("// Description: " + nl)%go;
            ("type Orders struct {" + nl)%go;
            (tab + "Id int64 `bigquery:" + dquote + "id" + dquote + "`" + nl)%go;
            (tab + "Total float64 `bigquery:" + dquote + "total" + dquote + "`" + nl)%go;
            ("}" + nl)%go;
            ("// Events is BigQuery Table `p:d.events` schema struct." + nl)%go;
            ("// Description: event log" + nl)%go;
            ("type Events struct {" + nl)%go;
            (tab + "Ts time.Time `bigquery:" + dquote + "ts" + dquote + "`" + nl)%go;
            ("}" + nl)%go ]),
     None).
Proof. vm_compute. reflexivity. Qed.

Lemma Generate_external_errors_witness :
  let gen := generateTableSchemaCode demoGoSyntax demoMetadata in
  Generate demoGoSyntax demoMetadata demoTables accept accept "other" =
    ([], (None, Some (Errorf_w "getAllTables: "
                        (Errorf_w "tableIterator.Next: " notFound)))) ∧
  (Generate demoGoSyntax demoMetadata demoTables refuse accept "d").2 =
    (None, Some (Errorf_w "format.Source: " (errorString "refused"))) ∧
  (Generate demoGoSyntax demoMetadata demoTables accept refuse "d").2 =
    (None, Some (Errorf_w "imports.Process: " (errorString "refused"))) ∧
  (gen missing = ("", [], Some (Errorf_w "table.Metadata: " notFound)) ∧
   (Generate demoGoSyntax demoMetadata demoTables accept accept "d").1 =
     skipped gen [orders; nested] ++ [logLine (Errorf_w "table.Metadata: " notFound)]
     ++ skipped gen [events] ∧
   rawDocument gen ([orders; nested] ++ missing :: [events]) =
     rawDocument gen ([orders; nested] ++ [events]) ∧
   (Generate demoGoSyntax demoMetadata demoTables accept accept "d").2 =
     (Some (rawDocument gen ([orders; nested] ++ [events])), None)).
Proof.
  intros gen.
  split; [|split; [|split]].
  - apply (proj1 (Generate_external_errors demoGoSyntax demoMetadata demoTables
                    accept accept "other")).
    reflexivity.
  - apply (proj1 (proj2 (Generate_external_errors demoGoSyntax demoMetadata demoTables
                           refuse accept "d"))
             [orders; nested; missing; events]); reflexivity.
  - apply (proj1 (proj2 (proj2 (Generate_external_errors demoGoSyntax demoMetadata
                                  demoTables accept refuse "d")))
             [orders; nested; missing; events]
             (rawDocument gen [orders; nested; missing; events])); reflexivity.
  - destruct (proj2 (proj2 (proj2 (Generate_external_errors demoGoSyntax demoMetadata
                                     demoTables accept accept "d")))
                [orders; nested] missing [events] notFound)
      as (Hgen & Hlog & Hraw & Hrun).
    + reflexivity.
    + discriminate.
    + reflexivity.
    + split; [exact Hgen|]. split; [exact Hlog|]. split; [exact Hraw|].
      apply (Hrun (rawDocument gen ([orders; nested] ++ [events]))); reflexivity.
Defined.

(** C6 fails for the claim as it stands: the metadata of the only table of
    the listing cannot be fetched, and the run still returns a document (the
    header alone) and no error; the failure is only logged. *)
Lemma metadata_failure_is_not_fatal :
  demoMetadata missing = inl notFound ∧
  Generate demoGoSyntax demoMetadata onlyMissing accept accept "d" =
    ([("generateTableSchemaCode: table.Metadata: notFound" + nl)%go],
     (Some head, None)).
Proof. split; vm_compute; reflexivity. Qed.

(** * Further properties of the mapper and of the struct generator *)

Lemma mapper_unsupported (t : FieldType) :
  t ∉ supported → bigqueryFieldTypeToGoType t = ("", "", Some (notSupported t)).
Proof.
  intros Hnot. unfold bigqueryFieldTypeToGoType.
  not_supported Hnot BytesFieldType. not_supported Hnot DateFieldType.
  not_supported Hnot TimeFieldType. not_supported Hnot DateTimeFieldType.
  not_supported Hnot TimestampFieldType. not_supported Hnot NumericFieldType.
  not_supported Hnot IntegerFieldType. not_supported Hnot StringFieldType.
  not_supported Hnot GeographyFieldType. not_supported Hnot BooleanFieldType.
  not_supported Hnot FloatFieldType.
  simpl. destruct (String.eqb t RecordFieldType); reflexivity.
Qed.

Lemma mapper_supported (t : FieldType) :
  t ∈ supported →
  ∃ goType pkg,
    bigqueryFieldTypeToGoType t = (goType, pkg, None) ∧
    goType ≠ "" ∧ (pkg = "" ∨ pkg ∈ importPaths).
Proof.
  rewrite supported_elem. unfold importPaths.
  intros Hin. repeat destruct Hin as [Hin|Hin]; subst t;
    (eexists; eexists; split; [reflexivity|]; split; [discriminate|]);
    rewrite !elem_of_cons; auto.
Qed.

(** X2: the mapper returns no error exactly for the supported types, and an
    empty type name exactly for the others: a caller can test either. *)
Theorem bigqueryFieldTypeToGoType_error_iff (t : FieldType) :
  ((bigqueryFieldTypeToGoType t).2 = None ↔ t ∈ supported) ∧
  ((bigqueryFieldTypeToGoType t).1.1 = "" ↔ t ∉ supported).
Proof.
  destruct (decide (t ∈ supported)) as [Hin|Hnot].
  - destruct (mapper_supported t Hin) as (goType & pkg & -> & Hne & _). simpl.
    split; split; intros; [assumption|reflexivity|contradiction|contradiction].
  - rewrite (mapper_unsupported t Hnot). simpl.
    split; split; intros; [discriminate|contradiction|assumption|reflexivity].
Qed.

Lemma mapperError_None_supported (schema : FieldSchema) :
  mapperError schema = None ↔ Type_ schema ∈ supported.
Proof.
  unfold mapperError. destruct (decide (Type_ schema ∈ supported)) as [Hin|Hnot].
  - destruct (mapper_supported _ Hin) as (goType & pkg & -> & _). simpl. tauto.
  - rewrite (mapper_unsupported _ Hnot). simpl. split; [discriminate|contradiction].
Qed.

Lemma columns_ok_or_not (schemas : list FieldSchema) :
  Forall (λ schema, mapperError schema = None) schemas ∨
  Exists (λ schema, is_Some (mapperError schema)) schemas.
Proof.
  induction schemas as [|s schemas [IH|IH]].
  - left. constructor.
  - destruct (mapperError s) as [err|] eqn:Hs.
    + right. apply Exists_cons_hd. rewrite Hs. eauto.
    + left. constructor; assumption.
  - right. apply Exists_cons_tl. exact IH.
Qed.

Lemma importsOf_paths (schemas : list FieldSchema) (pkg : string) :
  Forall (λ schema, mapperError schema = None) schemas →
  pkg ∈ importsOf schemas → pkg ∈ importPaths.
Proof.
  intros Hok Hin. unfold importsOf in Hin.
  apply list_elem_of_In, filter_In in Hin as [Hin Hne].
  apply list_elem_of_In, list_elem_of_fmap in Hin as (schema & -> & Hschema).
  rewrite Forall_forall in Hok. specialize (Hok schema Hschema).
  apply mapperError_None_supported in Hok.
  destruct (mapper_supported _ Hok) as (goType & p & Hmap & _ & [->|Hp]).
  - unfold pkgOf in Hne. rewrite Hmap in Hne. discriminate Hne.
  - unfold pkgOf. rewrite Hmap. exact Hp.
Qed.

Section GeneratorFacts.

Variable GoSyntax : Table → string.
Variable Metadata : Table → error + TableMetadata.
Variable Tables : string → TableIterator.

(** The four ways [generateTableSchemaCode] returns. *)
Lemma generateTableSchemaCode_cases (table : Table) :
  let gen := generateTableSchemaCode GoSyntax Metadata in
  (TableID table = "" ∧ ∃ err, gen table = ("", [], Some err)) ∨
  (TableID table ≠ "" ∧ ∃ err, Metadata table = inl err ∧
     gen table = ("", [], Some (Errorf_w "table.Metadata: " err))) ∨
  (TableID table ≠ "" ∧ ∃ md err, Metadata table = inr md ∧
     Exists (λ schema, is_Some (mapperError schema)) (Schema md) ∧
     gen table = ("", [], Some err)) ∨
  (TableID table ≠ "" ∧ ∃ md text, Metadata table = inr md ∧
     Forall (λ schema, mapperError schema = None) (Schema md) ∧
     gen table = ((text + "}" + nl)%go, importsOf (Schema md), None)).
Proof.
  intros gen. unfold gen, generateTableSchemaCode.
  destruct (decide (TableID table = "")) as [Hid|Hid].
  { left. split; [exact Hid|]. rewrite Hid. simpl. eauto. }
  right. rewrite (TableID_length table Hid).
  destruct (Metadata table) as [err|md].
  { left. split; [exact Hid|]. eauto. }
  right. destruct (columns_ok_or_not (Schema md)) as [Hok|Hex].
  - right. split; [exact Hid|]. rewrite (schemasLoop_ok _ _ _ Hok).
    eexists md, _. split; [reflexivity|]. split; [exact Hok|]. reflexivity.
  - left. split; [exact Hid|].
    destruct (first_failing_column _ Hex) as (before & schema & after & err & Hsplit & Hok & Herr).
    rewrite Hsplit, (schemasLoop_fail before after schema err _ _ Hok Herr).
    exists md, (Errorf_w "bigqueryFieldTypeToGoType: " err).
    split; [reflexivity|]. split; [exact Hex|reflexivity].
Qed.

Lemma not_all_and_some (schemas : list FieldSchema) :
  Forall (λ schema, mapperError schema = None) schemas →
  Exists (λ schema, is_Some (mapperError schema)) schemas → False.
Proof.
  intros Hok Hex. apply Exists_exists in Hex as (schema & Hin & [err Herr]).
  rewrite Forall_forall in Hok. rewrite (Hok schema Hin) in Herr. discriminate Herr.
Qed.

(** X1: [getAllTables] returns every table of the listing, in the order
    the iterator yields them, when the listing ends with [iterator.Done];
    when [Next] fails it returns no table at all, also not those yielded
    before the failure, and the error wrapped. *)
Theorem getAllTables_listing (datasetID : string) :
  (iteratorError (Tables datasetID) = None →
     getAllTables Tables datasetID = (iteratorTables (Tables datasetID), None)) ∧
  (∀ err, iteratorError (Tables datasetID) = Some err →
     getAllTables Tables datasetID =
       ([], Some (Errorf_w "tableIterator.Next: " err))).
Proof.
  unfold getAllTables. rewrite getAllTablesLoop_spec. split.
  - intros ->. reflexivity.
  - intros err ->. reflexivity.
Qed.

(** X3: struct generation succeeds exactly when the table identifier is not
    empty, the metadata can be fetched and every column has a supported
    type; and whenever it fails, the struct text and the import list it
    returns are empty. *)
Theorem generateTableSchemaCode_succeeds_iff (table : Table) :
  let gen := generateTableSchemaCode GoSyntax Metadata in
  ((gen table).2 = None ↔
   TableID table ≠ "" ∧
   ∃ md, Metadata table = inr md ∧
         Forall (λ schema, Type_ schema ∈ supported) (Schema md)) ∧
  (is_Some (gen table).2 → (gen table).1 = ("", [])).
Proof.
  intros gen.
  destruct (generateTableSchemaCode_cases table)
    as [[Hid [err Hgen]]|[[Hid (err & Hmd & Hgen)]|[[Hid (md & err & Hmd & Hex & Hgen)]
       |[Hid (md & text & Hmd & Hok & Hgen)]]]];
    fold gen in Hgen; rewrite Hgen; simpl; (split; [split|]).
  - discriminate.
  - intros [Hne _]. contradiction.
  - reflexivity.
  - discriminate.
  - intros (_ & md & Hmd' & _). congruence.
  - reflexivity.
  - discriminate.
  - intros (_ & md' & Hmd' & Hall). exfalso.
    assert (md' = md) as -> by congruence.
    apply (not_all_and_some (Schema md)); [|exact Hex].
    eapply Forall_impl; [exact Hall|]. intros schema. apply mapperError_None_supported.
  - reflexivity.
  - intros _. split; [exact Hid|]. exists md. split; [exact Hmd|].
    eapply Forall_impl; [exact Hok|]. intros schema. apply mapperError_None_supported.
  - reflexivity.
  - intros [e He]. discriminate He.
Qed.

(** X4: every import path that struct generation returns is one of the
    three paths [time], [cloud.google.com/go/civil] and [math/big]; none is
    empty. *)
Theorem generateTableSchemaCode_import_paths (table : Table) (pkg : string) :
  pkg ∈ (generateTableSchemaCode GoSyntax Metadata table).1.2 →
  pkg ∈ importPaths ∧ pkg ≠ "".
Proof.
  intros Hin.
  assert (pkg ∈ importPaths) as Hpaths.
  { destruct (generateTableSchemaCode_cases table)
      as [[_ [err Hgen]]|[[_ (err & _ & Hgen)]|[[_ (md & err & _ & _ & Hgen)]
         |[_ (md & text & _ & Hok & Hgen)]]]];
      rewrite Hgen in Hin; simpl in Hin;
      try (apply elem_of_nil in Hin; contradiction).
    exact (importsOf_paths _ _ Hok Hin). }
  split; [exact Hpaths|]. intros ->. unfold importPaths in Hpaths.
  rewrite !elem_of_cons, elem_of_nil in Hpaths.
  destruct Hpaths as [H|[H|[H|[]]]]; discriminate H.
Qed.

End GeneratorFacts.

(** * Further properties of the document assembler *)

Lemma Unwrap_Errorf_w (prefix : string) (err : error) :
  Unwrap (Errorf_w prefix err) = Some err.
Proof. reflexivity. Qed.

Lemma generateImportPackagesCode_nil `{MapRange} : generateImportPackagesCode [] = "".
Proof.
  unfold generateImportPackagesCode, uniq. cbn [foldl].
  rewrite map_size_empty. reflexivity.
Qed.

Section AssemblerFacts.

Variable GoSyntax : Table → string.
Variable Metadata : Table → error + TableMetadata.
Variable Tables : string → TableIterator.
Variable format_Source : string → error + string.
Variable imports_Process : string → error + string.
Context `{MapRange}.

Lemma skipped_structTexts_length (tables : list Table) :
  let gen := generateTableSchemaCode GoSyntax Metadata in
  length (skipped gen tables) + length (structTexts gen tables) = length tables.
Proof.
  intros gen. induction tables as [|table tables IH]; [reflexivity|].
  unfold skipped, structTexts in *. cbn [flat_map].
  destruct (gen table) as [[structCode pkgs] [err|]];
    rewrite !length_app; simpl length; lia.
Qed.

Lemma all_failed_nothing (tables : list Table) :
  let gen := generateTableSchemaCode GoSyntax Metadata in
  Forall (λ table, is_Some (gen table).2) tables →
  structTexts gen tables = [] ∧ structImports gen tables = [].
Proof.
  intros gen Hall. induction Hall as [|table tables [err Herr] _ [IH1 IH2]].
  - split; reflexivity.
  - unfold structTexts, structImports in *. cbn [flat_map].
    destruct (gen table) as [[structCode pkgs] e]. simpl in Herr. subst e.
    rewrite IH1, IH2. split; reflexivity.
Qed.

(** X5: whatever the formatter and the import resolver then do, a run whose
    listing succeeded logs exactly one line for each table whose struct
    generation fails, in table order; every listed table is either logged
    or has its struct text in the document, never both and never neither. *)
Theorem Generate_log (dataset : string) (tables : list Table) :
  let gen := generateTableSchemaCode GoSyntax Metadata in
  getAllTables Tables dataset = (tables, None) →
  (Generate GoSyntax Metadata Tables format_Source imports_Process dataset).1 =
    skipped gen tables ∧
  length (skipped gen tables) + length (structTexts gen tables) = length tables.
Proof.
  intros gen Hlist. split; [|apply skipped_structTexts_length].
  rewrite (Generate_listed GoSyntax Metadata Tables format_Source imports_Process
             dataset tables Hlist).
  fold gen. destruct (format_Source (rawDocument gen tables)) as [err|genFmt];
    [reflexivity|].
  destruct (imports_Process genFmt); reflexivity.
Qed.

(** X6: every error that [Generate] returns wraps an error of the table
    listing, of the formatter or of the import resolver: [errors.Unwrap]
    gives that very error back, after one step for the formatter and the
    resolver and after two steps for the listing.  A table that cannot be
    generated never makes [Generate] fail. *)
Theorem Generate_error_cause (dataset : string) (e : error) :
  (Generate GoSyntax Metadata Tables format_Source imports_Process dataset).2.2 =
    Some e →
  (∃ err, iteratorError (Tables dataset) = Some err ∧
          e = Errorf_w "getAllTables: " (Errorf_w "tableIterator.Next: " err) ∧
          Unwrap e ≫= Unwrap = Some err) ∨
  (∃ code err, format_Source code = inl err ∧
               e = Errorf_w "format.Source: " err ∧ Unwrap e = Some err) ∨
  (∃ code err, imports_Process code = inl err ∧
               e = Errorf_w "imports.Process: " err ∧ Unwrap e = Some err).
Proof.
  destruct (iteratorError (Tables dataset)) as [err|] eqn:Hit.
  - intros He. left. exists err. split; [reflexivity|].
    revert He. unfold Generate, getAllTables.
    rewrite getAllTablesLoop_spec, Hit. simpl. intros [= <-].
    split; reflexivity.
  - assert (getAllTables Tables dataset = (iteratorTables (Tables dataset), None))
      as Hlist.
    { unfold getAllTables. rewrite getAllTablesLoop_spec, Hit. reflexivity. }
    rewrite (Generate_listed GoSyntax Metadata Tables format_Source imports_Process
               dataset _ Hlist).
    destruct (format_Source _) as [err|genFmt] eqn:Hfmt.
    + simpl. intros [= <-]. right. left. eexists _, err.
      split; [exact Hfmt|]. split; [reflexivity|apply Unwrap_Errorf_w].
    + destruct (imports_Process genFmt) as [err|genImports] eqn:Himp.
      * simpl. intros [= <-]. right. right. exists genFmt, err.
        split; [exact Himp|]. split; [reflexivity|apply Unwrap_Errorf_w].
      * simpl. discriminate.
Qed.

(** X7: [Generate] returns either a document and no error, or an error and
    no document; never both, never neither. *)
Theorem Generate_document_or_error (dataset : string) :
  let result :=
    (Generate GoSyntax Metadata Tables format_Source imports_Process dataset).2 in
  (∃ genImports, result = (Some genImports, None)) ∨
  (∃ err, result = (None, Some err)).
Proof.
  intros result. unfold result, Generate.
  destruct (getAllTables Tables dataset) as [tables [err|]]; [right; eauto|].
  destruct (tablesLoop GoSyntax Metadata tables "" [] []) as [[tail pkgs] lines].
  destruct (format_Source _) as [err|genFmt]; [right; eauto|].
  destruct (imports_Process genFmt) as [err|genImports]; [right|left]; eauto.
Qed.

(** X10: when the listing succeeds and no listed table can be generated (in
    particular when the dataset has no table), the text handed to the
    formatter is the header alone, with no import block; if the formatter
    and the resolver accept it, the run succeeds with that document. *)
Theorem Generate_no_struct (dataset : string) (tables : list Table)
    (genFmt genImports : string) :
  let gen := generateTableSchemaCode GoSyntax Metadata in
  getAllTables Tables dataset = (tables, None) →
  Forall (λ table, is_Some (gen table).2) tables →
  format_Source head = inr genFmt →
  imports_Process genFmt = inr genImports →
  Generate GoSyntax Metadata Tables format_Source imports_Process dataset =
    (skipped gen tables, (Some genImports, None)).
Proof.
  intros gen Hlist Hall Hfmt Himp. subst gen.
  rewrite (Generate_listed GoSyntax Metadata Tables format_Source imports_Process
             dataset tables Hlist).
  unfold rawDocument.
  destruct (all_failed_nothing tables Hall) as [-> ->].
  rewrite generateImportPackagesCode_nil. cbn [joinLines foldr].
  rewrite !append_nil_r, Hfmt, Himp. reflexivity.
Qed.

End AssemblerFacts.

(** * Further properties of the import aggregator and of the helpers *)


Section AggregatorFacts.
Context `{MapRange}.


(** X9: the import block is the empty string exactly when the input holds
    no reference. *)
Theorem generateImportPackagesCode_empty_iff (importPackages : list string) :
  generateImportPackagesCode importPackages = "" ↔ importPackages = [].
Proof.
  split; [|intros ->; apply generateImportPackagesCode_nil].
  destruct importPackages as [|pkg l]; [reflexivity|]. intros Hempty. exfalso.
  assert (pkg ∈ rangeKeys (uniq (pkg :: l))) as Hin.
  { apply rangeKeys_elem, uniq_lookup. left. }
  revert Hempty. unfold generateImportPackagesCode.
  rewrite <- (rangeKeys_length (uniq (pkg :: l))).
  destruct (rangeKeys (uniq (pkg :: l))) as [|p1 [|p2 rest]].
  - apply elem_of_nil in Hin. contradiction.
  - cbn [length Nat.eqb foldl]. rewrite !append_assoc, append_cons. discriminate.
  - change (length (p1 :: p2 :: rest) =? 0)%nat with false.
    change (length (p1 :: p2 :: rest) =? 1)%nat with false.
    change (2 <=? length (p1 :: p2 :: rest))%nat with true.
    cbv iota. rewrite import_block_fold, !append_assoc, append_cons. discriminate.
Qed.

End AggregatorFacts.



Example generateImportPackagesCode_two_orders :
  @generateImportPackagesCode mapToListRange ["time"; "math/big"] =
    ("import (" + nl
     + tab + dquote + "math/big" + dquote + nl
     + tab + dquote + "time" + dquote + nl
     + ")" + nl + nl)%go ∧
  @generateImportPackagesCode reverseRange ["time"; "math/big"] =
    ("import (" + nl
     + tab + dquote + "time" + dquote + nl
     + tab + dquote + "math/big" + dquote + nl
     + ")" + nl + nl)%go.
Proof. split; vm_compute; reflexivity. Qed.

(** X11: [capitalizeInitial] returns the empty string only for the empty
    string, and on a string that starts with an ASCII byte it changes at
    most that byte: the bytes after the first and the length are kept. *)
Theorem capitalizeInitial_first_byte_only :
  (∀ s, capitalizeInitial s = "" ↔ s = "") ∧
  (∀ c rest, GoStrings.isRuneSelf c = false →
     (∃ C, capitalizeInitial (String c rest) = String C rest) ∧
     String.length (capitalizeInitial (String c rest)) =
       String.length (String c rest)).
Proof.
  split.
  - intros [|c rest]; [tauto|]. split; [|discriminate].
    unfold capitalizeInitial, GoStrings.ToUpper_byte, GoStrings.RuneError.
    destruct (GoStrings.isRuneSelf c), (GoStrings.isLower c);
      rewrite append_cons; discriminate.
  - intros c rest Hc.
    destruct (ToUpper_byte_ascii_fixed c Hc) as (C & HC & _).
    unfold capitalizeInitial. rewrite HC, append_cons, append_nil_l.
    split; [exists C|]; reflexivity.
Qed.

Lemma capitalizeInitial_first_byte_only_witness :
  (∃ C, capitalizeInitial "total" = String C "otal") ∧
  String.length (capitalizeInitial "total") = String.length "total".
Proof.
  apply (proj2 capitalizeInitial_first_byte_only "t"%char "otal"). reflexivity.
Defined.

(** X12: when [getOptOrEnvOrDefault] returns no error, the option key was
    not empty and the value it returns is not empty and is the option
    value, the value of the environment variable or the default value. *)
Theorem getOptOrEnvOrDefault_value (env : gmap string string)
    (optKey optValue envKey defaultValue value : string) :
  getOptOrEnvOrDefault env optKey optValue envKey defaultValue = (value, None) →
  optKey ≠ "" ∧ value ≠ "" ∧
  value ∈ [optValue; Getenv env envKey; defaultValue].
Proof.
  unfold getOptOrEnvOrDefault.
  destruct (String.eqb_spec optKey "") as [_|Hkey]; [discriminate|].
  fold (nonEmpty optValue) (nonEmpty (Getenv env envKey)) (nonEmpty defaultValue).
  destruct (nonEmpty optValue) eqn:H1;
    [|destruct (nonEmpty (Getenv env envKey)) eqn:H2;
      [|destruct (nonEmpty defaultValue) eqn:H3]];
    intros [= <-]; (split; [exact Hkey|]); rewrite !elem_of_cons;
    (split; [apply nonEmpty_true; assumption|tauto]).
Qed.

Lemma getOptOrEnvOrDefault_value_witness :
  optNameOutputFile ≠ "" ∧ defaultValueOutputFile ≠ "" ∧
  defaultValueOutputFile ∈
    [""; Getenv ∅ envNameOutputFile; defaultValueOutputFile].
Proof.
  apply (getOptOrEnvOrDefault_value ∅ optNameOutputFile "" envNameOutputFile
           defaultValueOutputFile defaultValueOutputFile).
  reflexivity.
Defined.

(** X13: an environment variable that is set to the empty string counts as
    not set: the lookup gives the same result as when the variable is
    absent. *)
Theorem getOptOrEnvOrDefault_empty_env (env : gmap string string)
    (optKey optValue envKey defaultValue : string) :
  getOptOrEnvOrDefault (<[envKey:=""]> env) optKey optValue envKey defaultValue =
  getOptOrEnvOrDefault (delete envKey env) optKey optValue envKey defaultValue.
Proof.
  unfold getOptOrEnvOrDefault, Getenv.
  rewrite lookup_insert_eq, lookup_delete_eq. reflexivity.
Qed.

(** * Properties of [Run] *)

Lemma getOptOrEnvOrDefault_setting (env : gmap string string)
    (optKey optValue envKey defaultValue : string) :
  optKey ≠ "" →
  getOptOrEnvOrDefault env optKey optValue envKey defaultValue =
    match setting env optValue envKey defaultValue with
    | Some value => (value, None)
    | None =>
        ("", Some (errorString
               ("set option -" + optKey + ", or set environment variable "
                + envKey)%go))
    end.
Proof.
  intros Hkey. apply String.eqb_neq in Hkey.
  unfold getOptOrEnvOrDefault, setting. rewrite Hkey. simpl.
  fold (nonEmpty optValue) (nonEmpty (Getenv env envKey)) (nonEmpty defaultValue).
  destruct (nonEmpty optValue); [reflexivity|].
  destruct (nonEmpty (Getenv env envKey)); [reflexivity|].
  destruct (nonEmpty defaultValue); reflexivity.
Qed.

Lemma setting_output_path (env : gmap string string) (optValue : string) :
  ∃ filePath,
    setting env optValue envNameOutputFile defaultValueOutputFile = Some filePath.
Proof.
  unfold setting. simpl.
  destruct (nonEmpty optValue); [eauto|].
  destruct (nonEmpty (Getenv env envNameOutputFile)); eauto.
Qed.

Lemma setting_nonEmpty (env : gmap string string)
    (optValue envKey defaultValue value : string) :
  setting env optValue envKey defaultValue = Some value → value ≠ "".
Proof.
  unfold setting. intros Hfind. apply find_some in Hfind as [_ Hne].
  apply nonEmpty_true. exact Hne.
Qed.

Lemma Getenv_insert_id (env : gmap string string) (key value : string) :
  value ≠ "" → Getenv env key = value → <[key:=value]> env = env.
Proof.
  unfold Getenv. intros Hne Hget. apply insert_id.
  destruct (env !! key) as [v|]; simpl in Hget; congruence.
Qed.

Section RunFacts2.

Variable GoSyntax : Table → string.
Variable NewClient : gmap string string → string → error + Client.
Variable format_Source : string → error + string.
Variable imports_Process : string → error + string.
Context `{MapRange} `{System}.
Variable opts : Options.

Lemma Generate_nil_error_document (client : Client) (dataset : string)
    (lines : list string) (generatedCode : option string) :
  Generate GoSyntax (clientMetadata client) (clientTables client) format_Source
    imports_Process dataset = (lines, (generatedCode, None)) →
  ∃ code, generatedCode = Some code.
Proof.
  unfold Generate.
  destruct (getAllTables _ dataset) as [tables [err|]]; [discriminate|].
  destruct (tablesLoop _ _ tables "" [] []) as [[tail pkgs] logs].
  destruct (format_Source _) as [err|genFmt]; [discriminate|].
  destruct (imports_Process genFmt) as [err|genImports]; [discriminate|].
  intros [= _ <-]. eauto.
Qed.

(** A run that returns no error went through every step. *)
Lemma Run_success_inv (w w' : World) :
  Run GoSyntax NewClient format_Source imports_Process opts w = (w', None) →
  ∃ filePath keyfile project dataset client lines generatedCode,
    setting (environ w) (optValueOutputPath opts) envNameOutputFile
      defaultValueOutputFile = Some filePath ∧
    setting (environ w) (optValueKeyFile opts)
      envNameGoogleApplicationCredentials "" = Some keyfile ∧
    setting (environ w) (optValueProjectID opts) envNameGCloudProjectID ""
      = Some project ∧
    setting (environ w) (optValueDataset opts) envNameBigQueryDataset ""
      = Some dataset ∧
    environ w' = <[envNameGoogleApplicationCredentials:=keyfile]> (environ w) ∧
    NewClient (environ w') project = inr client ∧
    Generate GoSyntax (clientMetadata client) (clientTables client) format_Source
      imports_Process dataset = (lines, (Some generatedCode, None)) ∧
    files w' = <[filePath:=generatedCode]> (files w) ∧
    logged w' =
      logged w ++ lines ++
      match clientClose client with Some err => [closeLine err] | None => [] end.
Proof.
  unfold Run.
  rewrite !getOptOrEnvOrDefault_setting by discriminate.
  destruct (setting _ (optValueOutputPath opts) _ _) as [filePath|]; [|discriminate].
  destruct (setting _ (optValueKeyFile opts) _ _) as [keyfile|] eqn:Hkey; [|discriminate].
  destruct (setting _ (optValueProjectID opts) _ _) as [project|]; [|discriminate].
  destruct (setting _ (optValueDataset opts) _ _) as [dataset|]; [|discriminate].
  assert (∀ env err,
    (if negb (String.eqb (Getenv (environ w) envNameGoogleApplicationCredentials)
                         keyfile)
     then os_Setenv (environ w) envNameGoogleApplicationCredentials keyfile
     else (environ w, None)) = (env, err) →
    err = None → env = <[envNameGoogleApplicationCredentials:=keyfile]> (environ w))
    as Henv.
  { intros env err Hset ->.
    destruct (String.eqb_spec (Getenv (environ w) envNameGoogleApplicationCredentials)
                keyfile) as [Hsame|_]; simpl in Hset.
    - injection Hset as <-. symmetry. apply Getenv_insert_id; [|exact Hsame].
      exact (setting_nonEmpty _ _ _ _ _ Hkey).
    - exact (os_Setenv_nil _ _ _ _ Hset). }
  destruct (if negb _ then _ else _) as [env [err|]]; [discriminate|].
  specialize (Henv env None eq_refl eq_refl).
  destruct (NewClient env project) as [err|client] eqn:Hclient; [discriminate|].
  destruct (Generate _ _ _ _ _ dataset) as [lines [generatedCode [err|]]] eqn:Hgen;
    [discriminate|].
  destruct (Generate_nil_error_document client dataset lines generatedCode Hgen)
    as [code ->].
  simpl default.
  destruct (ioutil_WriteFile (files w) filePath code) as [fs [err|]] eqn:Hwrite;
    [discriminate|].
  apply ioutil_WriteFile_nil in Hwrite. intros [= <-].
  exists filePath, keyfile, project, dataset, client, lines, code.
  unfold deferredClose. destruct (clientClose client); simpl;
    rewrite <- ?app_assoc, ?app_nil_r; subst env; repeat split; assumption.
Qed.

(** X14: when the key file, the project or the dataset is given neither by
    its option nor by its environment variable, [Run] returns the error of
    the first of them (in this order) that is missing, which names the
    option and the variable of that setting, and it changes nothing: no
    variable is set, no file is written, nothing is logged. *)
Theorem Run_missing_configuration (w : World) :
  let run := Run GoSyntax NewClient format_Source imports_Process opts in
  let keyfile :=
    setting (environ w) (optValueKeyFile opts)
      envNameGoogleApplicationCredentials "" in
  let project :=
    setting (environ w) (optValueProjectID opts) envNameGCloudProjectID "" in
  let dataset :=
    setting (environ w) (optValueDataset opts) envNameBigQueryDataset "" in
  (keyfile = None →
     run w =
       (w, Some (Errorf_w "getOptOrEnvOrDefault: "
                   (missingSetting "keyfile" "GOOGLE_APPLICATION_CREDENTIALS")))) ∧
  (is_Some keyfile → project = None →
     run w =
       (w, Some (Errorf_w "getOptOrEnvOrDefault: "
                   (missingSetting "project" "GCLOUD_PROJECT_ID")))) ∧
  (is_Some keyfile → is_Some project → dataset = None →
     run w =
       (w, Some (Errorf_w "getOptOrEnvOrDefault: "
                   (missingSetting "dataset" "BIGQUERY_DATASET")))).
Proof.
  intros run keyfile project dataset. unfold run, Run.
  rewrite !getOptOrEnvOrDefault_setting by discriminate.
  destruct (setting_output_path (environ w) (optValueOutputPath opts)) as [filePath ->].
  fold keyfile project dataset.
  split; [|split].
  - intros ->. reflexivity.
  - intros [k ->] ->. reflexivity.
  - intros [k ->] [p ->] ->. reflexivity.
Qed.

(** X15: when [Run] returns no error, the file at the output path (the
    option, else the variable [OUTPUT_FILE], else
    [bqtableschema.generated.go]) holds the document that [Generate]
    returned for the configured dataset, and every other file is as it
    was. *)
Theorem Run_success_file (w w' : World) :
  Run GoSyntax NewClient format_Source imports_Process opts w = (w', None) →
  ∃ filePath project dataset client generatedCode,
    setting (environ w) (optValueOutputPath opts) envNameOutputFile
      defaultValueOutputFile = Some filePath ∧
    setting (environ w) (optValueProjectID opts) envNameGCloudProjectID ""
      = Some project ∧
    setting (environ w) (optValueDataset opts) envNameBigQueryDataset ""
      = Some dataset ∧
    NewClient (environ w') project = inr client ∧
    (Generate GoSyntax (clientMetadata client) (clientTables client)
       format_Source imports_Process dataset).2 = (Some generatedCode, None) ∧
    files w' !! filePath = Some generatedCode ∧
    (∀ path, path ≠ filePath → files w' !! path = files w !! path).
Proof.
  intros Hrun.
  destruct (Run_success_inv w w' Hrun)
    as (filePath & keyfile & project & dataset & client & lines & code
        & Hpath & _ & Hproject & Hdataset & _ & Hclient & Hgen & Hfiles & _).
  exists filePath, project, dataset, client, code.
  rewrite Hgen, Hfiles. repeat split; try assumption.
  - apply lookup_insert_eq.
  - intros path Hne. apply lookup_insert_ne. congruence.
Qed.

(** X16: when [Run] returns no error, the variable
    [GOOGLE_APPLICATION_CREDENTIALS] holds the configured key file (the
    option, else the value the variable already had), and every other
    variable is as it was. *)
Theorem Run_success_environment (w w' : World) :
  Run GoSyntax NewClient format_Source imports_Process opts w = (w', None) →
  ∃ keyfile,
    setting (environ w) (optValueKeyFile opts)
      envNameGoogleApplicationCredentials "" = Some keyfile ∧
    environ w' !! envNameGoogleApplicationCredentials = Some keyfile ∧
    (∀ key, key ≠ envNameGoogleApplicationCredentials →
       environ w' !! key = environ w !! key).
Proof.
  intros Hrun.
  destruct (Run_success_inv w w' Hrun)
    as (filePath & keyfile & project & dataset & client & lines & code
        & _ & Hkey & _ & _ & Henv & _).
  exists keyfile. rewrite Henv. repeat split; try assumption.
  - apply lookup_insert_eq.
  - intros key Hne. apply lookup_insert_ne. congruence.
Qed.

(** X18: when [Run] returns no error, it has logged, after what was logged
    before, the lines of [Generate] (one per skipped table) and then, if
    closing the client failed, the line that reports it. *)
Theorem Run_success_log (w w' : World) :
  Run GoSyntax NewClient format_Source imports_Process opts w = (w', None) →
  ∃ project dataset client,
    setting (environ w) (optValueProjectID opts) envNameGCloudProjectID ""
      = Some project ∧
    setting (environ w) (optValueDataset opts) envNameBigQueryDataset ""
      = Some dataset ∧
    NewClient (environ w') project = inr client ∧
    logged w' =
      logged w
      ++ (Generate GoSyntax (clientMetadata client) (clientTables client)
            format_Source imports_Process dataset).1
      ++ match clientClose client with Some err => [closeLine err] | None => [] end.
Proof.
  intros Hrun.
  destruct (Run_success_inv w w' Hrun)
    as (filePath & keyfile & project & dataset & client & lines & code
        & _ & _ & Hproject & Hdataset & _ & Hclient & Hgen & _ & Hlog).
  exists project, dataset, client. rewrite Hgen. repeat split; assumption.
Qed.

(** X17: when [Run] returns an error, the files are as they were, unless
    the error is the one of [ioutil.WriteFile] itself: a failure of the
    configuration, of the client or of [Generate] never touches the output
    file. *)
Theorem Run_failure_files (w w' : World) (e : error) :
  Run GoSyntax NewClient format_Source imports_Process opts w = (w', Some e) →
  files w' = files w ∨ ∃ err, e = Errorf_w "ioutil.WriteFile: " err.
Proof.
  unfold Run.
  destruct (getOptOrEnvOrDefault _ optNameOutputFile _ _ _) as [filePath [err|]];
    [intros [= <- <-]; left; reflexivity|].
  destruct (getOptOrEnvOrDefault _ optNameKeyFile _ _ _) as [keyfile [err|]];
    [intros [= <- <-]; left; reflexivity|].
  destruct (getOptOrEnvOrDefault _ optNameProjectID _ _ _) as [project [err|]];
    [intros [= <- <-]; left; reflexivity|].
  destruct (getOptOrEnvOrDefault _ optNameDataset _ _ _) as [dataset [err|]];
    [intros [= <- <-]; left; reflexivity|].
  destruct (if negb _ then _ else _) as [env [err|]];
    [intros [= <- <-]; left; reflexivity|].
  destruct (NewClient env project) as [err|client];
    [intros [= <- <-]; left; reflexivity|].
  destruct (Generate _ _ _ _ _ dataset) as [lines [generatedCode [err|]]].
  { intros [= <- <-]. left. unfold deferredClose.
    destruct (clientClose client); reflexivity. }
  destruct (ioutil_WriteFile _ _ _) as [fs [err|]]; [|discriminate].
  intros [= <- <-]. right. eauto.
Qed.

End RunFacts2.

(** * The further properties on the small dataset *)

Lemma getAllTables_listing_witness :
  getAllTables demoTables "d" = ([orders; nested; missing; events], None) ∧
  getAllTables demoTables "other" =
    ([], Some (Errorf_w "tableIterator.Next: " notFound)).
Proof.
  split.
  - apply (proj1 (getAllTables_listing demoTables "d")). reflexivity.
  - apply (proj2 (getAllTables_listing demoTables "other")). reflexivity.
Defined.

Lemma generateTableSchemaCode_succeeds_iff_witness :
  (generateTableSchemaCode demoGoSyntax demoMetadata orders).2 = None ∧
  (generateTableSchemaCode demoGoSyntax demoMetadata nested).1 = ("", []).
Proof.
  split.
  - apply (proj1 (generateTableSchemaCode_succeeds_iff demoGoSyntax demoMetadata orders)).
    split; [discriminate|]. exists ordersMetadata. split; [reflexivity|].
    repeat constructor.
  - apply (proj2 (generateTableSchemaCode_succeeds_iff demoGoSyntax demoMetadata nested)).
    eexists. reflexivity.
Defined.

Lemma generateTableSchemaCode_import_paths_witness :
  "time" ∈ importPaths ∧ "time" ≠ "".
Proof.
  apply (generateTableSchemaCode_import_paths demoGoSyntax demoMetadata events "time").
  vm_compute. constructor.
Defined.

Lemma Generate_log_witness :
  let gen := generateTableSchemaCode demoGoSyntax demoMetadata in
  (Generate demoGoSyntax demoMetadata demoTables refuse accept "d").1 =
    skipped gen [orders; nested; missing; events] ∧
  length (skipped gen [orders; nested; missing; events])
  + length (structTexts gen [orders; nested; missing; events]) = 4.
Proof.
  apply (Generate_log demoGoSyntax demoMetadata demoTables refuse accept "d"
           [orders; nested; missing; events]).
  reflexivity.
Defined.

Lemma Generate_error_cause_witness :
  let e := Errorf_w "getAllTables: " (Errorf_w "tableIterator.Next: " notFound) in
  (∃ err, iteratorError (demoTables "other") = Some err ∧
          e = Errorf_w "getAllTables: " (Errorf_w "tableIterator.Next: " err) ∧
          Unwrap e ≫= Unwrap = Some err) ∨
  (∃ code err, accept code = inl err ∧
               e = Errorf_w "format.Source: " err ∧ Unwrap e = Some err) ∨
  (∃ code err, accept code = inl err ∧
               e = Errorf_w "imports.Process: " err ∧ Unwrap e = Some err).
Proof.
  intros e.
  apply (Generate_error_cause demoGoSyntax demoMetadata demoTables accept accept
           "other" e).
  reflexivity.
Defined.

Lemma Generate_no_struct_witness :
  Generate demoGoSyntax demoMetadata onlyMissing accept accept "d" =
    (skipped (generateTableSchemaCode demoGoSyntax demoMetadata) [missing],
     (Some head, None)).
Proof.
  apply (Generate_no_struct demoGoSyntax demoMetadata onlyMissing accept accept "d"
           [missing] head head).
  - reflexivity.
  - constructor; [|constructor]. eexists. reflexivity.
  - reflexivity.
  - reflexivity.
Defined.

Lemma Run_missing_configuration_witness :
  Run demoGoSyntax demoNewClient accept accept (mkOptions "p" "d" "" "") emptyWorld =
    (emptyWorld,
     Some (Errorf_w "getOptOrEnvOrDefault: "
             (missingSetting "keyfile" "GOOGLE_APPLICATION_CREDENTIALS"))) ∧
  Run demoGoSyntax demoNewClient accept accept (mkOptions "" "" "key.json" "")
    emptyWorld =
    (emptyWorld,
     Some (Errorf_w "getOptOrEnvOrDefault: "
             (missingSetting "project" "GCLOUD_PROJECT_ID"))) ∧
  Run demoGoSyntax demoNewClient accept accept (mkOptions "p" "" "key.json" "")
    emptyWorld =
    (emptyWorld,
     Some (Errorf_w "getOptOrEnvOrDefault: "
             (missingSetting "dataset" "BIGQUERY_DATASET"))).
Proof.
  split; [|split].
  - apply (proj1 (Run_missing_configuration demoGoSyntax demoNewClient accept accept
                    (mkOptions "p" "d" "" "") emptyWorld)).
    reflexivity.
  - apply (proj1 (proj2 (Run_missing_configuration demoGoSyntax demoNewClient accept
                           accept (mkOptions "" "" "key.json" "") emptyWorld))).
    + eexists. reflexivity.
    + reflexivity.
  - apply (proj2 (proj2 (Run_missing_configuration demoGoSyntax demoNewClient accept
                           accept (mkOptions "p" "" "key.json" "") emptyWorld))).
    + eexists. reflexivity.
    + eexists. reflexivity.
    + reflexivity.
Defined.

Lemma demoDone_no_error :
  Run demoGoSyntax demoNewClient accept accept demoOptions emptyWorld =
    (demoDone, None).
Proof. vm_compute. reflexivity. Qed.

Lemma Run_success_file_witness :
  ∃ filePath project dataset client generatedCode,
    setting (environ emptyWorld) (optValueOutputPath demoOptions) envNameOutputFile
      defaultValueOutputFile = Some filePath ∧
    setting (environ emptyWorld) (optValueProjectID demoOptions)
      envNameGCloudProjectID "" = Some project ∧
    setting (environ emptyWorld) (optValueDataset demoOptions)
      envNameBigQueryDataset "" = Some dataset ∧
    demoNewClient (environ demoDone) project = inr client ∧
    (Generate demoGoSyntax (clientMetadata client) (clientTables client)
       accept accept dataset).2 = (Some generatedCode, None) ∧
    files demoDone !! filePath = Some generatedCode ∧
    (∀ path, path ≠ filePath → files demoDone !! path = files emptyWorld !! path).
Proof.
  apply (Run_success_file demoGoSyntax demoNewClient accept accept demoOptions
           emptyWorld demoDone).
  exact demoDone_no_error.
Defined.

Lemma Run_success_environment_witness :
  ∃ keyfile,
    setting (environ emptyWorld) (optValueKeyFile demoOptions)
      envNameGoogleApplicationCredentials "" = Some keyfile ∧
    environ demoDone !! envNameGoogleApplicationCredentials = Some keyfile ∧
    (∀ key, key ≠ envNameGoogleApplicationCredentials →
       environ demoDone !! key = environ emptyWorld !! key).
Proof.
  apply (Run_success_environment demoGoSyntax demoNewClient accept accept demoOptions
           emptyWorld demoDone).
  exact demoDone_no_error.
Defined.

Lemma Run_success_log_witness :
  ∃ project dataset client,
    setting (environ emptyWorld) (optValueProjectID demoOptions)
      envNameGCloudProjectID "" = Some project ∧
    setting (environ emptyWorld) (optValueDataset demoOptions)
      envNameBigQueryDataset "" = Some dataset ∧
    demoNewClient (environ demoDone) project = inr client ∧
    logged demoDone =
      logged emptyWorld
      ++ (Generate demoGoSyntax (clientMetadata client) (clientTables client)
            accept accept dataset).1
      ++ match clientClose client with Some err => [closeLine err] | None => [] end.
Proof.
  apply (Run_success_log demoGoSyntax demoNewClient accept accept demoOptions
           emptyWorld demoDone).
  exact demoDone_no_error.
Defined.

Lemma Run_failure_files_witness :
  files demoRefused = files emptyWorld ∨
  ∃ err, refusedError = Errorf_w "ioutil.WriteFile: " err.
Proof.
  apply (Run_failure_files demoGoSyntax demoNewClient refuse accept demoOptions
           emptyWorld demoRefused refusedError).
  vm_compute. reflexivity.
Defined.

Example Run_demo :
  environ demoDone = {[ envNameGoogleApplicationCredentials := "key.json" ]} ∧
  dom (files demoDone) = {[ defaultValueOutputFile ]} ∧
  List.last (logged demoDone) "" = ("client.Close: close failed" + nl)%go.
Proof. repeat split; vm_compute; reflexivity. Qed.
